(** * hermes.typeo: a command-line parser derived from a function signature

    Shallow embedding of [hermes/typeo/__init__.py]: the dictionary parsing
    action, the resolution of [typing] annotations, the docstring scanner,
    [make_parser] and the [typeo] decorator, together with the fragment of
    the Python runtime ([str] methods, exceptions, [argparse]) that this
    code calls. *)

From Stdlib Require Import ZArith Ascii String.
From stdpp Require Import gmap strings list.

Open Scope string_scope.

(** ** Python strings *)

Module PyStr.

Definition chr (c : ascii) : string := String c "".

(** The newline character, as a string. *)
Definition nl : string := chr (ascii_of_nat 10).

(** [s * n] *)
Fixpoint repeat (s : string) (n : nat) : string :=
  match n with
  | O => ""
  | S k => s ++ repeat s k
  end.

(** [s.startswith(p)] *)
Definition startswith (s p : string) : bool := String.prefix p s.

(** [sub in s] *)
Fixpoint contains (sub s : string) : bool :=
  String.prefix sub s ||
  match s with
  | "" => false
  | String _ s' => contains sub s'
  end.

(** [s.split(sep)] for a non-empty [sep]: occurrences are found from the
    left and do not overlap.  [skip] counts the characters of a separator
    that was just matched and are still to be dropped, [cur] is the piece
    being collected. *)
Fixpoint split_from (sep : string) (skip : nat) (cur s : string) : list string :=
  match s with
  | "" => [cur]
  | String c s' =>
      match skip with
      | S k => split_from sep k cur s'
      | O =>
          if String.prefix sep s
          then cur :: split_from sep (String.length sep - 1) "" s'
          else split_from sep 0 (cur ++ chr c) s'
      end
  end.

Definition split (s sep : string) : list string := split_from sep 0 "" s.

(** [sep.join(parts)] *)
Fixpoint join (sep : string) (parts : list string) : string :=
  match parts with
  | [] => ""
  | [x] => x
  | x :: rest => x ++ sep ++ join sep rest
  end.

(** [s.replace(old, new)] for a non-empty [old]. *)
Definition replace (s old new : string) : string := join new (split s old).

(** The ASCII characters for which [str.isspace] holds. *)
Definition isspace (c : ascii) : bool :=
  let n := nat_of_ascii c in
  ((9 <=? n)%nat && (n <=? 13)%nat) || ((28 <=? n)%nat && (n <=? 32)%nat).

(** [s.lstrip()] *)
Fixpoint lstrip (s : string) : string :=
  match s with
  | "" => ""
  | String c s' => if isspace c then lstrip s' else s
  end.

(** [s.rstrip()] *)
Fixpoint rstrip (s : string) : string :=
  match s with
  | "" => ""
  | String c s' =>
      match rstrip s' with
      | "" => if isspace c then "" else chr c
      | r => String c r
      end
  end.

(** [s.strip()] *)
Definition strip (s : string) : string := lstrip (rstrip s).

(** [s.lstrip(chars)] for a one-character [chars]. *)
Fixpoint lstrip_char (c : ascii) (s : string) : string :=
  match s with
  | "" => ""
  | String a s' => if Ascii.eqb a c then lstrip_char c s' else s
  end.

Definition lower_char (c : ascii) : ascii :=
  let n := nat_of_ascii c in
  if (65 <=? n)%nat && (n <=? 90)%nat then ascii_of_nat (n + 32) else c.

(** [s.lower()] on ASCII text *)
Fixpoint lower (s : string) : string :=
  match s with
  | "" => ""
  | String c s' => String (lower_char c) (lower s')
  end.

(** [str(b)] for a [bool] *)
Definition of_bool (b : bool) : string := if b then "True" else "False".

End PyStr.

(** ** Exceptions and results *)

(** The exception classes that the code and its callees raise.  An
    [ArgumentError] is what [argparse] raises internally; [parse_args]
    turns it into a usage message and [SystemExit 2]. *)
Inductive exn :=
| AttributeError (msg : string)
| TypeError (msg : string)
| ValueError (msg : string)
| AssertionError
| IndexError (msg : string)
| ArgumentError (msg : string)
| SystemExit (code : Z).

Inductive outcome (A : Type) :=
| Ok (a : A)
| Raise (e : exn).
Arguments Ok {A} a.
Arguments Raise {A} e.

#[global] Instance outcome_ret : MRet outcome := fun A a => Ok a.

#[global] Instance outcome_bind : MBind outcome := fun A B k m =>
  match m with
  | Ok a => k a
  | Raise e => Raise e
  end.

(** [try: m except E: h] where [h] decides per exception whether it handles
    it (and re-raises the others itself). *)
Definition try_except {A} (m : outcome A) (h : exn -> outcome A) : outcome A :=
  match m with
  | Ok a => Ok a
  | Raise e => h e
  end.

(** [assert b] *)
Definition assert (b : bool) : outcome unit :=
  if b then Ok tt else Raise AssertionError.

(** [str(e)] *)
Definition exn_str (e : exn) : string :=
  match e with
  | AttributeError m | TypeError m | ValueError m | IndexError m | ArgumentError m => m
  | AssertionError => ""
  | SystemExit c => ""
  end.

(** [seq[i]] *)
Definition index {A} (l : list A) (i : nat) : outcome A :=
  match l !! i with
  | Some x => Ok x
  | None => Raise (IndexError "tuple index out of range")
  end.

(** [for x in xs: body] threading a value and stopping at the first
    exception. *)
Fixpoint for_each {A S} (xs : list A) (body : A -> S -> outcome S) (s : S) : outcome S :=
  match xs with
  | [] => Ok s
  | x :: rest => s' ← body x s; for_each rest body s'
  end.

(** ** Python values *)

(** The values that defaults, parsed arguments and results range over.
    [VOther cls payload] stands for an instance of a class outside the
    builtins modelled here. *)
#[warning="-register-all"]
Inductive value :=
| VNone
| VBool (b : bool)
| VInt (z : Z)
| VStr (s : string)
| VList (l : list value)
| VDict (d : gmap string value)
| VOther (cls payload : string).

(** [bool(v)], which is also what [not v] negates. *)
Definition truthy (v : value) : bool :=
  match v with
  | VNone => false
  | VBool b => b
  | VInt z => negb (z =? 0)%Z
  | VStr s => negb (String.eqb s "")
  | VList l => negb (Nat.eqb (length l) 0)
  | VDict d => negb (Nat.eqb (size d) 0)
  | VOther _ _ => true
  end.

(** [v is None] *)
Definition is_None (v : value) : bool :=
  match v with
  | VNone => true
  | _ => false
  end.

(** ** Annotations *)

(** Classes that appear as annotations; [Cempty] is [inspect._empty], the
    marker of a missing annotation. *)
Inductive pyclass :=
| Cbool | Cint | Cstr | CNoneType | Cobject | Cempty
| Cother (qualname : string).

(** [__origin__] of a subscripted [typing] generic. *)
Inductive origin :=
| Olist | Otuple | Odict | OSequence | OUnion
| Oother (name : string).

(** An annotation object: a class, a subscripted generic of the [typing]
    module with its [__origin__] and [__args__], or [Ellipsis] (the [...] of
    [Tuple[int, ...]]). *)
#[warning="-register-all"]
Inductive annotation :=
| Class (c : pyclass)
| Generic (o : origin) (args : list annotation)
| Ellipsis_.

Definition pyclass_eqb (a b : pyclass) : bool :=
  match a, b with
  | Cbool, Cbool | Cint, Cint | Cstr, Cstr | CNoneType, CNoneType
  | Cobject, Cobject | Cempty, Cempty => true
  | Cother x, Cother y => String.eqb x y
  | _, _ => false
  end.

Definition origin_eqb (a b : origin) : bool :=
  match a, b with
  | Olist, Olist | Otuple, Otuple | Odict, Odict | OSequence, OSequence
  | OUnion, OUnion => true
  | Oother x, Oother y => String.eqb x y
  | _, _ => false
  end.

(** [a == b] on annotation objects.  The [typing] module caches subscripted
    generics, so [a is b] is modelled by the same test. *)
Fixpoint annotation_eqb (a b : annotation) : bool :=
  match a, b with
  | Class x, Class y => pyclass_eqb x y
  | Generic o xs, Generic p ys =>
      origin_eqb o p &&
      (fix go (xs ys : list annotation) : bool :=
         match xs, ys with
         | [], [] => true
         | x :: xs', y :: ys' => annotation_eqb x y && go xs' ys'
         | _, _ => false
         end) xs ys
  | Ellipsis_, Ellipsis_ => true
  | _, _ => false
  end.

Definition class_name (c : pyclass) : string :=
  match c with
  | Cbool => "bool"
  | Cint => "int"
  | Cstr => "str"
  | CNoneType => "NoneType"
  | Cobject => "object"
  | Cempty => "inspect._empty"
  | Cother n => n
  end.

Definition origin_name (o : origin) : string :=
  match o with
  | Olist => "typing.List"
  | Otuple => "typing.Tuple"
  | Odict => "typing.Dict"
  | OSequence => "typing.Sequence"
  | OUnion => "typing.Union"
  | Oother n => n
  end.

(** The text of an annotation inside the brackets of a generic. *)
Fixpoint type_repr (a : annotation) : string :=
  match a with
  | Class c => class_name c
  | Generic o args => origin_name o ++ "[" ++ PyStr.join ", " (map type_repr args) ++ "]"
  | Ellipsis_ => "..."
  end.

(** [str(a)], as [format] prints it. *)
Definition annotation_str (a : annotation) : string :=
  match a with
  | Class c => "<class '" ++ class_name c ++ "'>"
  | Generic _ _ => type_repr a
  | Ellipsis_ => "Ellipsis"
  end.

(** [str(o)] for an origin. *)
Definition origin_str (o : origin) : string :=
  match o with
  | Olist => "<class 'list'>"
  | Otuple => "<class 'tuple'>"
  | Odict => "<class 'dict'>"
  | OSequence => "<class 'collections.abc.Sequence'>"
  | OUnion => "typing.Union"
  | Oother n => n
  end.

(** [a.__origin__] *)
Definition get_origin (a : annotation) : outcome origin :=
  match a with
  | Generic o _ => Ok o
  | _ => Raise (AttributeError "__origin__")
  end.

(** [a.__args__] *)
Definition get_args (a : annotation) : outcome (list annotation) :=
  match a with
  | Generic _ args => Ok args
  | _ => Raise (AttributeError "__args__")
  end.

(** [isinstance(None, a)]: true for the classes [None] is an instance of,
    a [TypeError] for anything that is not a class. *)
Definition isinstance_None (a : annotation) : outcome bool :=
  match a with
  | Class CNoneType | Class Cobject => Ok true
  | Class _ => Ok false
  | Generic _ _ =>
      Raise (TypeError "Subscripted generics cannot be used with class and instance checks")
  | Ellipsis_ =>
      Raise (TypeError "isinstance() arg 2 must be a type, a tuple of types, or a union")
  end.

(** [callable(a)]: classes and [typing] generics define [__call__]. *)
Definition callable_annotation (a : annotation) : bool :=
  match a with
  | Ellipsis_ => false
  | _ => true
  end.

(** ** Calling a type on a token *)

Definition digit_value (c : ascii) : option Z :=
  let n := nat_of_ascii c in
  if (48 <=? n)%nat && (n <=? 57)%nat then Some (Z.of_nat (n - 48)) else None.

(** Decimal digits, with single underscores allowed between digits. *)
Fixpoint int_digits (s : string) (acc : Z) (after_digit : bool) : option Z :=
  match s with
  | "" => if after_digit then Some acc else None
  | String c s' =>
      match digit_value c with
      | Some d => int_digits s' (10 * acc + d)%Z true
      | None =>
          if Ascii.eqb c "_" && after_digit then int_digits s' acc false else None
      end
  end.

(** [int(s)] on ASCII text: surrounding whitespace, an optional sign, then
    decimal digits. *)
Definition py_int (s : string) : outcome value :=
  let t := PyStr.strip s in
  let r :=
    match t with
    | String "-" d => Z.opp <$> int_digits d 0 false
    | String "+" d => int_digits d 0 false
    | _ => int_digits t 0 false
    end in
  match r with
  | Some z => Ok (VInt z)
  | None => Raise (ValueError ("invalid literal for int() with base 10: '" ++ s ++ "'"))
  end.

Section Runtime.

(** Construction of an instance of a class outside the modelled builtins
    from one string, [cls(token)]. *)
Variable call_other : string -> string -> outcome value.

(** [a(token)] for an annotation object [a]. *)
Definition call_type (a : annotation) (token : string) : outcome value :=
  match a with
  | Class Cstr => Ok (VStr token)
  | Class Cint => py_int token
  | Class Cbool => Ok (VBool (negb (String.eqb token "")))
  | Class CNoneType => Raise (TypeError "NoneType takes no arguments")
  | Class Cobject => Raise (TypeError "object() takes no arguments")
  | Class Cempty => Raise (TypeError "_empty() takes no arguments")
  | Class (Cother cls) => call_other cls token
  | Generic o _ =>
      Raise (TypeError ("Type " ++ origin_name o ++ " cannot be instantiated"))
  | Ellipsis_ => Raise (TypeError "'ellipsis' object is not callable")
  end.

End Runtime.

(** ** [_DictParsingAction] *)

(** The attributes of an [argparse.Namespace]. *)
Abbreviation namespace := (gmap string value).

(** [setattr(namespace, dest, v)] *)
Definition setattr (ns : namespace) (dest : string) (v : value) : namespace :=
  <[dest := v]> ns.

(** One round of the loop: [k, v = value.split("="); dict_value[k] = type(v)]. *)
Definition dict_entry (type_ : string -> outcome value) (token : string)
    (dict_value : gmap string value) : outcome (gmap string value) :=
  match PyStr.split token "=" with
  | [k; v] => x ← type_ v; Ok (<[k := x]> dict_value)
  | [] | [_] => Raise (ValueError "not enough values to unpack (expected 2, got 1)")
  | _ => Raise (ValueError "too many values to unpack (expected 2)")
  end.

(** [_DictParsingAction.__call__(parser, namespace, values)], where [type_]
    is [self._type] and [dest] is [self.dest].  The tokens reach the action
    as strings, because [__init__] replaces the [type] of the action by
    [str]. *)
Definition DictParsingAction_call (type_ : string -> outcome value)
    (ns : namespace) (dest : string) (values : list string) : outcome namespace :=
  let as_dict :=
    dict_value ← for_each values (dict_entry type_) ∅;
    Ok (setattr ns dest (VDict dict_value)) in
  match values with
  | [v0] =>
      if negb (PyStr.contains "=" v0) then
        x ← type_ v0; Ok (setattr ns dest x)
      else as_dict
  | _ => as_dict
  end.

(** ** Signatures *)

Inductive param_kind :=
| POSITIONAL_ONLY | POSITIONAL_OR_KEYWORD | VAR_POSITIONAL | KEYWORD_ONLY | VAR_KEYWORD.

(** An [inspect.Parameter]; [default = None] is [inspect._empty], a
    parameter without default. *)
Record Param := {
  p_name : string;
  p_kind : param_kind;
  p_annotation : annotation;
  p_default : option value
}.

(** [param.default is not None] *)
Definition default_is_not_None (p : Param) : bool :=
  match p_default p with
  | Some VNone => false
  | _ => true
  end.

(** ** Resolution of annotations *)

(** [_enforce_array_like(annotation, type_, name)] *)
Definition _enforce_array_like (ann type_ : annotation) (name : string) : outcome annotation :=
  args ← get_args ann;
  annotation ← index args 1;
  _ ← try_except
        (o ← get_origin annotation;
         if origin_eqb o Olist || origin_eqb o OSequence then
           cargs ← get_args annotation;
           a0 ← index cargs 0;
           assert (annotation_eqb a0 type_)
         else if origin_eqb o Odict then
           cargs ← get_args annotation;
           a1 ← index cargs 1;
           assert (annotation_eqb a1 type_)
         else if origin_eqb o Otuple then
           cargs ← get_args annotation;
           for_each cargs (fun arg _ => assert (annotation_eqb arg type_)) tt
         else
           Raise (TypeError ("Arg " ++ name ++ " has Union of type " ++ annotation_str type_
                             ++ " and type " ++ annotation_str annotation
                             ++ " with unknown origin " ++ origin_str o)))
        (fun e =>
           match e with
           | AttributeError _ =>
               Raise (TypeError ("Arg " ++ name ++ " has Union of types "
                                 ++ annotation_str type_ ++ " and " ++ annotation_str annotation))
           | _ => Raise e
           end);
  Ok annotation.

(** [_parse_union(param)] *)
Definition _parse_union (param : Param) : outcome annotation :=
  let annotation := p_annotation param in
  args ← get_args annotation;
  type_ ← index args 0;
  try_except
    (a1 ← index args 1;
     is_none ← isinstance_None a1;
     if (is_none : bool) then
       if default_is_not_None param then
         Raise (ValueError ("Argument " ++ p_name param ++ " with Union of type "
                            ++ annotation_str type_
                            ++ " and NoneType must have a default of None"))
       else Ok type_
     else _enforce_array_like annotation type_ (p_name param))
    (fun e =>
       match e with
       | TypeError _ =>
           if PyStr.contains "Subscripted" (exn_str e)
           then _enforce_array_like annotation type_ (p_name param)
           else Raise e
       | _ => Raise e
       end).

(** [_get_origin_and_type(annotation)] *)
Definition _get_origin_and_type (a : annotation) : option origin * option annotation :=
  match get_origin a with
  | Ok o => (Some o, None)
  | Raise _ => (None, Some a)
  end.

(** The [action] entry of the keyword arguments for [add_argument]: the
    [_DictParsingAction] class, or the name of a registered action. *)
Inductive action_spec :=
| ActDictParsing
| ActName (s : string).

(** The [kwargs] dictionary that [make_parser] builds for one
    [add_argument] call; an absent key is [None]. *)
Record add_kwargs := {
  kw_nargs : option string;
  kw_action : option action_spec;
  kw_help : option string;
  kw_type : option annotation;
  kw_required : option bool;
  kw_default : option value
}.

Definition empty_kwargs : add_kwargs :=
  {| kw_nargs := None; kw_action := None; kw_help := None;
     kw_type := None; kw_required := None; kw_default := None |}.

Definition set_nargs (v : string) (k : add_kwargs) : add_kwargs :=
  {| kw_nargs := Some v; kw_action := kw_action k; kw_help := kw_help k;
     kw_type := kw_type k; kw_required := kw_required k; kw_default := kw_default k |}.

Definition set_action (v : action_spec) (k : add_kwargs) : add_kwargs :=
  {| kw_nargs := kw_nargs k; kw_action := Some v; kw_help := kw_help k;
     kw_type := kw_type k; kw_required := kw_required k; kw_default := kw_default k |}.

Definition set_help (v : string) (k : add_kwargs) : add_kwargs :=
  {| kw_nargs := kw_nargs k; kw_action := kw_action k; kw_help := Some v;
     kw_type := kw_type k; kw_required := kw_required k; kw_default := kw_default k |}.

Definition set_type (v : annotation) (k : add_kwargs) : add_kwargs :=
  {| kw_nargs := kw_nargs k; kw_action := kw_action k; kw_help := kw_help k;
     kw_type := Some v; kw_required := kw_required k; kw_default := kw_default k |}.

Definition set_required (v : bool) (k : add_kwargs) : add_kwargs :=
  {| kw_nargs := kw_nargs k; kw_action := kw_action k; kw_help := kw_help k;
     kw_type := kw_type k; kw_required := Some v; kw_default := kw_default k |}.

Definition set_default (v : value) (k : add_kwargs) : add_kwargs :=
  {| kw_nargs := kw_nargs k; kw_action := kw_action k; kw_help := kw_help k;
     kw_type := kw_type k; kw_required := kw_required k; kw_default := Some v |}.

(** [origin in (list, tuple, dict, abc.Sequence)] *)
Definition is_array_like (o : origin) : bool :=
  origin_eqb o Olist || origin_eqb o Otuple || origin_eqb o Odict || origin_eqb o OSequence.

(** [arg is not Ellipsis] *)
Definition is_not_Ellipsis (a : annotation) : bool :=
  match a with
  | Ellipsis_ => false
  | _ => true
  end.

(** [_parse_array_like(annotation, origin, kwargs)]: the updated [kwargs]
    and the returned type, [None] when the annotation has no origin. *)
Definition _parse_array_like (ann : annotation) (o : option origin) (kwargs : add_kwargs)
    : outcome (add_kwargs * option annotation) :=
  match o with
  | Some og =>
      if is_array_like og then
        let kwargs := set_nargs "+" kwargs in
        if origin_eqb og Odict then
          let kwargs := set_action ActDictParsing kwargs in
          args ← get_args ann;
          a0 ← index args 0;
          _ ← assert (annotation_eqb a0 (Class Cstr));
          type_ ← index args 1;
          Ok (kwargs, Some type_)
        else
          args ← get_args ann;
          type_ ← index args 0;
          _ ← (if origin_eqb og Otuple then
                 for_each (drop 1 args)
                   (fun arg _ =>
                      if is_not_Ellipsis arg then assert (annotation_eqb arg type_)
                      else Ok tt) tt
               else Ok tt);
          Ok (kwargs, Some type_)
      else
        Raise (TypeError ("Can't help with arg of type " ++ origin_str og))
  | None => Ok (kwargs, None)
  end.

(** ** Functions and the process *)

(** The part of the process that a call can touch: the argument vector,
    how often it has been read, and what has been printed. *)
Record world := {
  sys_argv : list string;
  argv_reads : nat;
  stdout : list string
}.

(** A Python function as the decorator sees it: its name, docstring and
    signature, and what calling it with positional and keyword arguments
    does. *)
Record callable := {
  __name__ : string;
  __doc__ : option string;
  signature : list Param;
  call : list value -> gmap string value -> world -> outcome value * world
}.

(** An object passed to the decorator: a function or a plain value. *)
Inductive pyobject :=
| ObjCallable (f : callable)
| ObjValue (v : value).

(** [bool(o)] *)
Definition object_truthy (o : pyobject) : bool :=
  match o with
  | ObjCallable _ => true
  | ObjValue v => truthy v
  end.

(** ** The docstring scanner *)

(** The loop of [_parse_help] over the lines of the arguments section, with
    its two variables [doc_str] and [started]. *)
Fixpoint parse_help_loop (lines : list string) (arg_name doc_str : string) (started : bool)
    : string :=
  match lines with
  | [] => doc_str
  | line :: rest =>
      if String.eqb line (PyStr.repeat " " 8 ++ arg_name ++ ":") then
        parse_help_loop rest arg_name doc_str true
      else if negb (PyStr.startswith line (PyStr.repeat " " 12)) && started then
        doc_str
      else if started then
        parse_help_loop rest arg_name (doc_str ++ " " ++ PyStr.strip line) true
      else
        parse_help_loop rest arg_name doc_str started
  end.

(** [_parse_help(args, arg_name)] *)
Definition _parse_help (args arg_name : string) : string :=
  parse_help_loop (PyStr.split args PyStr.nl) arg_name "" false.

(** ** The fragment of [argparse] that [make_parser] drives *)

(** How many tokens a flag takes: one ([nargs=None]), one or more
    ([nargs="+"]), or none (the [store_true] and [store_false] actions and
    [help]). *)
Inductive nargs_t := NargsOne | NargsPlus | NargsZero.

Inductive action_kind :=
| KStore
| KStoreConst
| KDictParsing (type_ : annotation)
| KHelp.

(** An [argparse.Action].  [a_default = None] is [argparse.SUPPRESS];
    [a_type = None] is [type=None], which leaves the token a string. *)
Record Action := {
  option_strings : list string;
  dest : string;
  a_nargs : nargs_t;
  a_const : value;
  a_default : option value;
  a_type : option annotation;
  a_required : bool;
  a_help : string;
  a_kind : action_kind
}.

Record ArgumentParser := {
  prog : pyobject;
  description : string;
  actions : list Action
}.

(** The [-h/--help] action that every parser starts with. *)
Definition help_action : Action :=
  {| option_strings := ["-h"; "--help"]; dest := "help"; a_nargs := NargsZero;
     a_const := VNone; a_default := None; a_type := None; a_required := false;
     a_help := "show this help message and exit"; a_kind := KHelp |}.

(** [argparse.ArgumentParser(prog=..., description=...)] *)
Definition new_parser (prog : pyobject) (description : string) : ArgumentParser :=
  {| prog := prog; description := description; actions := [help_action] |}.

Definition string_in (s : string) (l : list string) : bool :=
  existsb (String.eqb s) l.

(** The destination that [add_argument] infers from a long flag:
    ['--foo-bar' -> 'foo_bar']. *)
Definition infer_dest (flag : string) : string :=
  PyStr.replace (PyStr.lstrip_char "-" flag) "-" "_".

(** The action object that the class selected by [kwargs["action"]] builds. *)
Definition make_action (flag : string) (dest : string) (kwargs : add_kwargs) : outcome Action :=
  let help := default "" (kw_help kwargs) in
  let store_const (c : bool) :=
    match kw_nargs kwargs, kw_type kwargs with
    | Some _, _ => Raise (TypeError "__init__() got an unexpected keyword argument 'nargs'")
    | None, Some _ => Raise (TypeError "__init__() got an unexpected keyword argument 'type'")
    | None, None =>
        Ok {| option_strings := [flag]; dest := dest; a_nargs := NargsZero;
              a_const := VBool c;
              a_default := Some (default (VBool (negb c)) (kw_default kwargs));
              a_type := None; a_required := default false (kw_required kwargs);
              a_help := help; a_kind := KStoreConst |}
    end in
  nargs ← match kw_nargs kwargs with
          | None => Ok NargsOne
          | Some n =>
              if String.eqb n "+" then Ok NargsPlus
              else Raise (ValueError "length of metavar tuple does not match nargs")
          end;
  let store (ty : option annotation) (k : action_kind) :=
    Ok {| option_strings := [flag]; dest := dest; a_nargs := nargs;
          a_const := VNone; a_default := Some (default VNone (kw_default kwargs));
          a_type := ty; a_required := default false (kw_required kwargs);
          a_help := help; a_kind := k |} in
  match kw_action kwargs with
  | None => store (kw_type kwargs) KStore
  | Some (ActName registered) =>
      if String.eqb registered "store" then store (kw_type kwargs) KStore
      else if String.eqb registered "store_true" then store_const true
      else if String.eqb registered "store_false" then store_const false
      else Raise (ValueError ("unknown action '" ++ registered ++ "'"))
  | Some ActDictParsing =>
      match kw_type kwargs with
      | Some t => store (Some (Class Cstr)) (KDictParsing t)
      | None => Raise (TypeError "'NoneType' object is not callable")
      end
  end.

(** [parser.add_argument(flag, **kwargs)] for a flag that starts with a
    dash: the destination is inferred, the action is built, its type must be
    callable, and its flag must not be taken. *)
Definition add_argument (parser : ArgumentParser) (flag : string) (kwargs : add_kwargs)
    : outcome ArgumentParser :=
  let stripped := PyStr.lstrip_char "-" flag in
  if String.eqb stripped "" then
    Raise (ValueError ("dest= is required for options like '" ++ flag ++ "'"))
  else
    action ← make_action flag (infer_dest flag) kwargs;
    if negb (default true (callable_annotation <$> a_type action)) then
      Raise (ValueError "type is not callable")
    else if existsb (fun a => string_in flag (option_strings a)) (actions parser) then
      Raise (ArgumentError ("argument " ++ flag ++ ": conflicting option string: " ++ flag))
    else
      Ok {| prog := prog parser; description := description parser;
            actions := (actions parser ++ [action])%list |}.

(** ** [make_parser] *)

(** The description and the arguments section of the docstring. *)
Definition split_doc (doc : option string) : string * string :=
  match doc with
  | None => ("", "")
  | Some d =>
      match PyStr.split d ("Args:" ++ PyStr.nl) with
      | [doc; args] =>
          match PyStr.split args ("Returns:" ++ PyStr.nl) with
          | [args'; _] => (doc, args')
          | _ => (doc, args)
          end
      | _ => (d, "")
      end
  end.

(** [type_ is bool] *)
Definition is_bool (t : option annotation) : bool :=
  match t with
  | Some (Class Cbool) => true
  | _ => false
  end.

(** The body of the loop of [make_parser] up to the [add_argument] call:
    the keyword arguments derived from one parameter. *)
Definition param_kwargs (args : string) (param : Param) : outcome add_kwargs :=
  let annotation := p_annotation param in
  let kwargs := empty_kwargs in
  let '(origin, type_) := _get_origin_and_type annotation in
  '(annotation, origin, type_) ←
    match origin with
    | Some OUnion =>
        annotation ← _parse_union param;
        let '(origin, type_) := _get_origin_and_type annotation in
        Ok (annotation, origin, type_)
    | _ => Ok (annotation, origin, type_)
    end;
  '(kwargs, returned) ← _parse_array_like annotation origin kwargs;
  let type_ := match returned with Some t => Some t | None => type_ end in
  let kwargs := set_help (_parse_help args (p_name param)) kwargs in
  if is_bool type_ then
    match p_default param with
    | None => Ok (set_action (ActName "store_true") kwargs)
    | Some d =>
        let action := PyStr.lower (PyStr.of_bool (negb (truthy d))) in
        Ok (set_action (ActName ("store_" ++ action)) kwargs)
    end
  else
    let kwargs :=
      {| kw_nargs := kw_nargs kwargs; kw_action := kw_action kwargs;
         kw_help := kw_help kwargs; kw_type := type_;
         kw_required := kw_required kwargs; kw_default := kw_default kwargs |} in
    match p_default param with
    | None => Ok (set_required true kwargs)
    | Some d => Ok (set_default d kwargs)
    end.

(** The flag of a parameter: [f"--{name.replace('_', '-')}"]. *)
Definition flag_of (name : string) : string :=
  "--" ++ PyStr.replace name "_" "-".

(** One round of the loop of [make_parser]. *)
Definition add_param (args : string) (param : Param) (parser : ArgumentParser)
    : outcome ArgumentParser :=
  kwargs ← param_kwargs args param;
  add_argument parser (flag_of (p_name param)) kwargs.

(** [prog or f.__name__] *)
Definition prog_or_name (prog : pyobject) (name : string) : pyobject :=
  if object_truthy prog then prog else ObjValue (VStr name).

(** [make_parser(f, prog)] *)
Definition make_parser (f : callable) (prog : pyobject) : outcome ArgumentParser :=
  let '(doc, args) := split_doc (__doc__ f) in
  let parser := new_parser (prog_or_name prog (__name__ f)) (PyStr.rstrip doc) in
  for_each (signature f) (add_param args) parser.

(** ** [parse_args] *)

(** Parsing is modelled for argument vectors in which a flag is spelled in
    full as its own token.  A token that starts with a dash and is no flag of
    the parser is taken as an unknown flag; the abbreviated and
    [--flag=value] spellings, negative numbers and the [--] separator that
    [argparse] also understands are not modelled.  The usage message that
    accompanies an error is not modelled either: an error is the
    [SystemExit 2] that follows it. *)

Section Parsing.

Variable call_other : string -> string -> outcome value.

(** [parser._get_value(action, token)]: a [TypeError] or [ValueError] of the
    type becomes an [ArgumentError]. *)
Definition get_value (a : Action) (token : string) : outcome value :=
  match a_type a with
  | None => Ok (VStr token)
  | Some t =>
      try_except (call_type call_other t token)
        (fun e =>
           match e with
           | TypeError _ | ValueError _ => Raise (ArgumentError "invalid value")
           | _ => Raise e
           end)
  end.

Fixpoint get_values (a : Action) (tokens : list string) : outcome (list value) :=
  match tokens with
  | [] => Ok []
  | t :: rest => v ← get_value a t; vs ← get_values a rest; Ok (v :: vs)
  end.

(** Running the action of a flag on the tokens collected for it. *)
Definition take_action (a : Action) (tokens : list string) (ns : namespace)
    : outcome namespace :=
  match a_kind a with
  | KHelp => Raise (SystemExit 0)
  | KStoreConst => Ok (setattr ns (dest a) (a_const a))
  | KStore =>
      match a_nargs a, tokens with
      | NargsOne, [t] => v ← get_value a t; Ok (setattr ns (dest a) v)
      | NargsOne, _ => Raise (ArgumentError "expected one argument")
      | _, _ => vs ← get_values a tokens; Ok (setattr ns (dest a) (VList vs))
      end
  | KDictParsing t =>
      DictParsingAction_call (call_type call_other t) ns (dest a) tokens
  end.

(** Does the flag whose tokens are being collected take one more? *)
Definition takes_more (a : Action) (collected : list string) : bool :=
  match a_nargs a with
  | NargsOne => Nat.eqb (length collected) 0
  | NargsPlus => true
  | NargsZero => false
  end.

(** The number of tokens is checked when the flag is met. *)
Definition check_count (a : Action) (collected : list string) : outcome unit :=
  match a_nargs a, collected with
  | NargsOne, [] => Raise (ArgumentError "expected one argument")
  | NargsPlus, [] => Raise (ArgumentError "expected at least one argument")
  | _, _ => Ok tt
  end.

Record parse_state := {
  st_namespace : namespace;
  st_seen : list (list string);
  st_extras : list string;
  st_pending : option (Action * list string)
}.

(** The flag being collected is complete: run its action. *)
Definition flush (st : parse_state) : outcome parse_state :=
  match st_pending st with
  | None => Ok st
  | Some (a, collected) =>
      _ ← check_count a collected;
      ns ← take_action a collected (st_namespace st);
      Ok {| st_namespace := ns; st_seen := (st_seen st ++ [option_strings a])%list;
            st_extras := st_extras st; st_pending := None |}
  end.

Definition find_action (acts : list Action) (token : string) : option Action :=
  find (fun a => string_in token (option_strings a)) acts.

Definition add_extra (token : string) (st : parse_state) : parse_state :=
  {| st_namespace := st_namespace st; st_seen := st_seen st;
     st_extras := (st_extras st ++ [token])%list; st_pending := st_pending st |}.

Definition consume (acts : list Action) (token : string) (st : parse_state)
    : outcome parse_state :=
  match find_action acts token with
  | Some a =>
      st' ← flush st;
      Ok {| st_namespace := st_namespace st'; st_seen := st_seen st';
            st_extras := st_extras st'; st_pending := Some (a, []) |}
  | None =>
      if PyStr.startswith token "-" then
        st' ← flush st;
        Ok (add_extra token st')
      else
        match st_pending st with
        | Some (a, collected) =>
            if takes_more a collected then
              Ok {| st_namespace := st_namespace st; st_seen := st_seen st;
                    st_extras := st_extras st;
                    st_pending := Some (a, (collected ++ [token])%list) |}
            else Ok (add_extra token st)
        | None => Ok (add_extra token st)
        end
  end.

(** The namespace starts with the default of every action whose
    destination is not set yet. *)
Definition init_defaults (acts : list Action) : namespace :=
  foldl (fun ns a =>
           match ns !! dest a, a_default a with
           | None, Some d => setattr ns (dest a) d
           | _, _ => ns
           end) ∅ acts.

Definition list_string_eqb (a b : list string) : bool :=
  bool_decide (a = b).

Definition was_seen (a : Action) (seen : list (list string)) : bool :=
  existsb (list_string_eqb (option_strings a)) seen.

Definition value_is_str (v d : value) : option string :=
  match v, d with
  | VStr s, VStr s' => if String.eqb s s' then Some s else None
  | _, _ => None
  end.

(** After the last token: a string default of a flag that was not given is
    converted by the type of the flag, and the required flags that were not
    given are collected. *)
Definition finish_action (seen : list (list string)) (a : Action)
    (acc : namespace * list string) : outcome (namespace * list string) :=
  let '(ns, missing) := acc in
  if was_seen a seen then Ok acc
  else if a_required a then Ok (ns, (missing ++ option_strings a)%list)
  else
    match a_default a, ns !! dest a with
    | Some d, Some v =>
        match value_is_str v d with
        | Some s => v' ← get_value a s; Ok (setattr ns (dest a) v', missing)
        | None => Ok acc
        end
    | _, _ => Ok acc
    end.

(** [parser.parse_args(argv)]: the attributes of the namespace it returns. *)
Definition parse_args (parser : ArgumentParser) (argv : list string) : outcome namespace :=
  try_except
    (let st0 := {| st_namespace := init_defaults (actions parser); st_seen := [];
                   st_extras := []; st_pending := None |} in
     st ← for_each argv (consume (actions parser)) st0;
     st ← flush st;
     '(ns, missing) ← for_each (actions parser) (finish_action (st_seen st))
                        (st_namespace st, []);
     match missing, st_extras st with
     | [], [] => Ok ns
     | _ :: _, _ => Raise (ArgumentError "the following arguments are required")
     | [], _ :: _ => Raise (ArgumentError "unrecognized arguments")
     end)
    (fun e =>
       match e with
       | ArgumentError _ => Raise (SystemExit 2)
       | _ => Raise e
       end).

(** ** The decorator *)

(** [sys.argv], counting the reads. *)
Definition read_argv (w : world) : list string * world :=
  (sys_argv w,
   {| sys_argv := sys_argv w; argv_reads := S (argv_reads w); stdout := stdout w |}).

(** The [wrapper] closure over [f] and [parser].  A call of
    [parser.parse_args()] without arguments parses [sys.argv[1:]];
    [vars(namespace)] is the mapping of its attributes. *)
Definition wrapper (f : callable) (parser : ArgumentParser)
    (args : list value) (kwargs : gmap string value) (w : world) : outcome value * world :=
  if Nat.eqb (length args) (size kwargs) && Nat.eqb (size kwargs) 0 then
    let '(argv, w') := read_argv w in
    match parse_args parser (drop 1 argv) with
    | Ok ns => call f args ns w'
    | Raise e => (Raise e, w')
    end
  else call f args kwargs w.

(** Binding [make_parser(f, *args, **kwargs)] to its signature
    [(f, prog=None)]. *)
Definition make_parser_call (f : callable) (args : list pyobject)
    (kwargs : gmap string pyobject) : outcome ArgumentParser :=
  match args, map_to_list kwargs with
  | [], [] => make_parser f (ObjValue VNone)
  | [a], [] => make_parser f a
  | [], [(k, a)] =>
      if String.eqb k "prog" then make_parser f a
      else Raise (TypeError ("make_parser() got an unexpected keyword argument '" ++ k ++ "'"))
  | _, _ => Raise (TypeError "make_parser() got unexpected arguments")
  end.

(** A function after decoration: what a call with positional and keyword
    arguments does. *)
Definition wrapped : Type :=
  list value -> gmap string value -> world -> outcome value * world.

(** What a call of [typeo] returns: the wrapper of a function, or
    [wrapperwrapper], which builds the wrapper of the function it is given. *)
Inductive typeo_result :=
| Wrapper (wrapper : wrapped)
| WrapperWrapper (wrapperwrapper : callable -> outcome wrapped).

(** [typeo], called with positional arguments [args] and keyword
    arguments [kwargs]. *)
Definition typeo (args : list pyobject) (kwargs : gmap string pyobject)
    : outcome typeo_result :=
  match args with
  | [ObjCallable f] =>
      parser ← make_parser f (ObjValue VNone);
      Ok (Wrapper (wrapper f parser))
  | _ =>
      Ok (WrapperWrapper (fun f =>
            parser ← make_parser_call f args kwargs;
            Ok (wrapper f parser)))
  end.

End Parsing.


(** ** The rules as the specification words them *)

(** Splitting a token at the first occurrence of the separator. *)
Fixpoint partition_first (c : ascii) (s : string) : option (string * string) :=
  match s with
  | "" => None
  | String a s' =>
      if Ascii.eqb a c then Some ("", s')
      else
        match partition_first c s' with
        | Some (k, v) => Some (String a k, v)
        | None => None
        end
  end.

(** The specification's rule for one token of a mapping-typed flag: split
    on the first separator, a non-empty key, the value coerced; a token
    without separator is a parse error (a usage message and exit status
    2). *)
Definition spec_dict_entry (type_ : string -> outcome value) (token : string)
    (d : gmap string value) : outcome (gmap string value) :=
  match partition_first "=" token with
  | Some (k, v) =>
      if String.eqb k "" then Raise (SystemExit 2)
      else x ← type_ v; Ok (<[k := x]> d)
  | None => Raise (SystemExit 2)
  end.

(** The specification's rule for the tokens of a mapping-typed flag that
    are not a single separator-free token. *)
Definition spec_dict_entries (type_ : string -> outcome value)
    (ns : namespace) (dest : string) (values : list string) : outcome namespace :=
  d ← for_each values (spec_dict_entry type_) ∅;
  Ok (setattr ns dest (VDict d)).

(** The specification's help text of a block of continuation lines: their
    stripped content joined by a single space. *)
Definition spec_help_text (block : list string) : string :=
  PyStr.join " " (map PyStr.strip block).

(** ** Sample functions *)

(** A runtime without classes beyond the builtins. *)
Definition no_other_classes (cls token : string) : outcome value :=
  Raise (TypeError ("'" ++ cls ++ "' is not available")).

(** A body that returns its keyword arguments. *)
Definition return_kwargs (args : list value) (kwargs : gmap string value) (w : world)
    : outcome value * world :=
  (Ok (VDict kwargs), w).

Definition def (name : string) (doc : option string) (params : list Param) : callable :=
  {| __name__ := name; __doc__ := doc; signature := params; call := return_kwargs |}.

Definition param (name : string) (a : annotation) (d : option value) : Param :=
  {| p_name := name; p_kind := POSITIONAL_OR_KEYWORD; p_annotation := a; p_default := d |}.

(** The same parameter with another kind. *)
Definition with_kind (k : param_kind) (p : Param) : Param :=
  {| p_name := p_name p; p_kind := k; p_annotation := p_annotation p;
     p_default := p_default p |}.

(** The same parameter with another annotation. *)
Definition with_annotation (a : annotation) (p : Param) : Param :=
  {| p_name := p_name p; p_kind := p_kind p; p_annotation := a;
     p_default := p_default p |}.

(** The same function with another signature. *)
Definition with_signature (ps : list Param) (f : callable) : callable :=
  {| __name__ := __name__ f; __doc__ := __doc__ f; signature := ps; call := call f |}.

(** [Optional[t]] *)
Definition Optional (t : annotation) : annotation :=
  Generic OUnion [t; Class CNoneType].

(** [Tuple[t, ...]] *)
Definition VariadicTuple (t : annotation) : annotation :=
  Generic Otuple [t; Ellipsis_].

(** [def f(flag: Optional[bool] = None)] *)
Definition fn_optional_flag : callable :=
  def "f" None [param "flag" (Optional (Class Cbool)) (Some VNone)].

(** [def f(_a: int)] *)
Definition fn_leading_underscore : callable :=
  def "f" None [param "_a" (Class Cint) None].

(** [def f(x: List[List[int]])] *)
Definition fn_list_of_lists : callable :=
  def "f" None [param "x" (Generic Olist [Generic Olist [Class Cint]]) None].

(** [def f( *args: int)] *)
Definition fn_var_positional : callable :=
  def "f" None [with_kind VAR_POSITIONAL (param "args" (Class Cint) None)].

(** [def f(x: Union[int, Tuple[int, ...]])] *)
Definition fn_union_variadic_tuple : callable :=
  def "f" None [param "x" (Generic OUnion [Class Cint; VariadicTuple (Class Cint)]) None].

(** The arguments section of the docstring of the usage example of
    [typeo]: the lines before the marker line of [other_number], its two
    continuation lines, and the line that closes the docstring. *)
Definition adder_pre : list string :=
  ["        a:";
   "            The first number to add"].

Definition adder_block : list string :=
  ["            The other number to add whose description";
   "            inexplicably spans multiple lines"].

Definition adder_rest : list string := ["    "].

Definition adder_args : string :=
  PyStr.join PyStr.nl
    (adder_pre ++ ("        other_number:" :: adder_block ++ adder_rest))%list.

(** ** Vocabulary of the statements *)

(** A well-formed entry of a mapping-typed flag: a key and a value text,
    both free of the separator, and the value that the text coerces to. *)
Definition entry : Type := string * string * value.

Definition entry_key (e : entry) : string := e.1.1.

Definition entry_token (e : entry) : string := e.1.1 ++ "=" ++ e.1.2.

Definition entry_ok (type_ : string -> outcome value) (e : entry) : Prop :=
  PyStr.contains "=" e.1.1 = false /\
  PyStr.contains "=" e.1.2 = false /\
  type_ e.1.2 = Ok e.2.

(** The tokens are exactly one token, and that token has no separator. *)
Definition single_bare_token (values : list string) : Prop :=
  exists tok, values = [tok] /\ PyStr.contains "=" tok = false.

(** The line that starts the help of [arg_name]: 8 spaces, the name, a
    colon. *)
Definition marker_line (arg_name : string) : string :=
  PyStr.repeat " " 8 ++ arg_name ++ ":".

(** The line is indented by 12 spaces or more. *)
Definition indented12 (line : string) : Prop :=
  PyStr.startswith line (PyStr.repeat " " 12) = true.

(** A line of the text that [split] cuts at the newlines. *)
Definition one_line (line : string) : Prop :=
  PyStr.contains PyStr.nl line = false.

(** What the scanner accumulates over a block of continuation lines: for
    each line a space and its stripped content. *)
Definition accumulated_help (block : list string) : string :=
  foldl (fun doc_str line => doc_str ++ " " ++ PyStr.strip line) "" block.

(** The value that a flag parameter has when its flag is not given: false
    without default, the truth value of the default otherwise. *)
Definition flag_default (d : option value) : bool :=
  match d with
  | None => false
  | Some v => truthy v
  end.

(** Every [a] in the string replaced by [b]. *)
Fixpoint subst_char (a b : ascii) (s : string) : string :=
  match s with
  | "" => ""
  | String c s' => String (if Ascii.eqb c a then b else c) (subst_char a b s')
  end.




Section Dispatch.

Variable call_other : string -> string -> outcome value.

(** The dispatch rule of a wrapper [w] of [f] with [parser]: without
    arguments it reads the argument vector once, parses it and calls [f]
    with the attributes of the namespace as keyword arguments, or raises
    what the parser raises without calling [f]; with any argument it is the
    call of [f] with the same arguments, in result and in effect. *)
Definition dispatches (f : callable) (parser : ArgumentParser) (w : wrapped) : Prop :=
  (forall st,
      w [] ∅ st
      = match parse_args call_other parser (drop 1 (sys_argv st)) with
        | Ok ns => call f [] ns (read_argv st).2
        | Raise e => (Raise e, (read_argv st).2)
        end)
  /\ (forall args kwargs st,
         args <> [] \/ kwargs <> ∅ ->
         w args kwargs st = call f args kwargs st).

End Dispatch.






(** ** [hermes.quiver.exporters.ensemble] *)

(** An entry of [config.output]: the name of an output and its
    dimensions. *)
Record ModelOutput := {
  mo_name : string;
  mo_dims : list Z
}.

(** [Ensemble._get_output_shapes(model_fn, output_names)], with [outputs]
    for [self.config.output] and [model_fn] the [None] that an ensemble has
    for a model function:
    [{x.name: list(x.dims) for x in outputs} or None]. *)
Definition _get_output_shapes (outputs : list ModelOutput) (model_fn : unit)
    (output_names : option (list string)) : option (gmap string (list Z)) :=
  let shapes := foldl (fun d x => <[mo_name x := mo_dims x]> d) ∅ outputs in
  if decide (shapes = ∅) then None else Some shapes.

(** * Properties *)

(** ** Strings *)

Lemma str_app_nil_r (s : string) : s ++ "" = s.
Proof.
  induction s as [|c s IH]; [reflexivity|].
  change (String c (s ++ "") = String c s). now f_equal.
Qed.

Lemma str_app_assoc (a b c : string) : (a ++ b) ++ c = a ++ b ++ c.
Proof.
  induction a as [|x a IH]; [reflexivity|].
  change (String x ((a ++ b) ++ c) = String x (a ++ b ++ c)). now f_equal.
Qed.

Lemma prefix_chr (c a : ascii) (s : string) :
  String.prefix (PyStr.chr c) (String a s) = Ascii.eqb c a.
Proof.
  unfold PyStr.chr. simpl. destruct (ascii_dec c a) as [->|Hne].
  - rewrite Ascii.eqb_refl. now destruct s.
  - symmetry. now apply Ascii.eqb_neq.
Qed.

Lemma contains_chr_cons (c a : ascii) (s : string) :
  PyStr.contains (PyStr.chr c) (String a s)
  = Ascii.eqb c a || PyStr.contains (PyStr.chr c) s.
Proof.
  change (PyStr.contains (PyStr.chr c) (String a s))
    with (String.prefix (PyStr.chr c) (String a s) || PyStr.contains (PyStr.chr c) s).
  now rewrite prefix_chr.
Qed.

Lemma contains_chr_app (c : ascii) (a b : string) :
  PyStr.contains (PyStr.chr c) (a ++ b)
  = PyStr.contains (PyStr.chr c) a || PyStr.contains (PyStr.chr c) b.
Proof.
  induction a as [|x a IH].
  - reflexivity.
  - change (String x a ++ b) with (String x (a ++ b)).
    rewrite !contains_chr_cons, IH. now rewrite orb_assoc.
Qed.

Lemma split_from_nonempty (sep : string) (s : string) :
  forall skip cur, PyStr.split_from sep skip cur s <> [].
Proof.
  induction s as [|c s IH]; intros skip cur; simpl.
  - done.
  - destruct skip; [|apply IH].
    match goal with |- context [if ?b then _ else _] => destruct b end;
      [done | apply IH].
Qed.

Lemma split_chr_step (c a : ascii) (cur s : string) :
  PyStr.split_from (PyStr.chr c) 0 cur (String a s)
  = if Ascii.eqb c a then cur :: PyStr.split_from (PyStr.chr c) 0 "" s
    else PyStr.split_from (PyStr.chr c) 0 (cur ++ PyStr.chr a) s.
Proof.
  change (PyStr.split_from (PyStr.chr c) 0 cur (String a s))
    with (if String.prefix (PyStr.chr c) (String a s)
          then cur :: PyStr.split_from (PyStr.chr c) (String.length (PyStr.chr c) - 1) "" s
          else PyStr.split_from (PyStr.chr c) 0 (cur ++ PyStr.chr a) s).
  now rewrite prefix_chr.
Qed.

(** A piece without the separator is cut off at the separator that
    follows it. *)
Lemma split_chr_app (c : ascii) (l r : string) :
  PyStr.contains (PyStr.chr c) l = false ->
  forall cur,
    PyStr.split_from (PyStr.chr c) 0 cur (l ++ String c r)
    = (cur ++ l) :: PyStr.split_from (PyStr.chr c) 0 "" r.
Proof.
  induction l as [|a l IH]; intros Hl cur.
  - change ("" ++ String c r) with (String c r).
    rewrite split_chr_step, Ascii.eqb_refl. now rewrite str_app_nil_r.
  - rewrite contains_chr_cons in Hl. apply orb_false_iff in Hl as [Hca Hl].
    change (String a l ++ String c r) with (String a (l ++ String c r)).
    rewrite split_chr_step, Hca, (IH Hl).
    now rewrite str_app_assoc.
Qed.

(** A string without the separator is one piece. *)
Lemma split_chr_none (c : ascii) (l : string) :
  PyStr.contains (PyStr.chr c) l = false ->
  forall cur, PyStr.split_from (PyStr.chr c) 0 cur l = [cur ++ l].
Proof.
  induction l as [|a l IH]; intros Hl cur.
  - simpl. now rewrite str_app_nil_r.
  - rewrite contains_chr_cons in Hl. apply orb_false_iff in Hl as [Hca Hl].
    rewrite split_chr_step, Hca, (IH Hl). now rewrite str_app_assoc.
Qed.

(** Splitting undoes joining, for pieces that are free of the separator. *)
Lemma split_join_chr (c : ascii) (ls : list string) :
  ls <> [] ->
  Forall (fun l => PyStr.contains (PyStr.chr c) l = false) ls ->
  PyStr.split (PyStr.join (PyStr.chr c) ls) (PyStr.chr c) = ls.
Proof.
  unfold PyStr.split. induction ls as [|l ls IH]; intros Hne Hall; [done|].
  apply Forall_cons in Hall as [Hl Hall].
  destruct ls as [|l' ls].
  - simpl. now rewrite split_chr_none.
  - change (PyStr.join (PyStr.chr c) (l :: l' :: ls))
      with (l ++ String c (PyStr.join (PyStr.chr c) (l' :: ls))).
    rewrite split_chr_app by assumption. change ("" ++ l) with l.
    f_equal. now apply IH.
Qed.

(** ** Results *)

Lemma bind_Ok {A B} (a : A) (k : A -> outcome B) : (Ok a ≫= k) = k a.
Proof. reflexivity. Qed.

Lemma bind_Raise {A B} (e : exn) (k : A -> outcome B) : (Raise e ≫= k) = Raise e.
Proof. reflexivity. Qed.

(** ** Loops *)

Lemma for_each_app {A S} (xs ys : list A) (body : A -> S -> outcome S) (s : S) :
  for_each (xs ++ ys)%list body s = (s' ← for_each xs body s; for_each ys body s').
Proof.
  revert s. induction xs as [|x xs IH]; intros s; simpl; [reflexivity|].
  destruct (body x s) as [s1|e]; simpl; [apply IH | reflexivity].
Qed.

Lemma for_each_cons {A S} (x : A) (xs : list A) (body : A -> S -> outcome S) (s : S) :
  for_each (x :: xs) body s = (body x s ≫= fun s' => for_each xs body s').
Proof. reflexivity. Qed.


(** A loop that completes has completed every round. *)
Lemma for_each_ok_inv {A S} (xs : list A) (body : A -> S -> outcome S) (s s' : S) :
  for_each xs body s = Ok s' ->
  forall x, x ∈ xs -> exists s1 s2, body x s1 = Ok s2.
Proof.
  revert s. induction xs as [|y xs IH]; intros s Hrun x Hin.
  - inversion Hin.
  - simpl in Hrun. destruct (body y s) as [s1|e] eqn:Hy; simpl in Hrun; [|discriminate].
    apply elem_of_cons in Hin as [->|Hin]; [eauto | eapply IH; eauto].
Qed.

(** ** The dictionary parsing action *)

Lemma dict_entry_ok (type_ : string -> outcome value) (e : entry) (d : gmap string value) :
  entry_ok type_ e ->
  dict_entry type_ (entry_token e) d = Ok (<[entry_key e := e.2]> d).
Proof.
  destruct e as [[k v] x]. intros (Hk & Hv & Hx). simpl in *.
  unfold dict_entry, entry_token, entry_key. simpl.
  change (PyStr.split (k ++ "=" ++ v) "=")
    with (PyStr.split (PyStr.join (PyStr.chr "=") [k; v]) (PyStr.chr "=")).
  rewrite split_join_chr; [|done|by repeat constructor].
  now rewrite Hx.
Qed.

Lemma dict_entry_bare (type_ : string -> outcome value) (tok : string) (d : gmap string value) :
  PyStr.contains "=" tok = false ->
  dict_entry type_ tok d = Raise (ValueError "not enough values to unpack (expected 2, got 1)").
Proof.
  intros Htok. unfold dict_entry.
  change (PyStr.split tok "=")
    with (PyStr.split (PyStr.join (PyStr.chr "=") [tok]) (PyStr.chr "=")).
  rewrite split_join_chr; [reflexivity|done|by repeat constructor].
Qed.

Lemma dict_entry_many (type_ : string -> outcome value) (k v more : string)
    (d : gmap string value) :
  PyStr.contains "=" k = false ->
  PyStr.contains "=" v = false ->
  dict_entry type_ (k ++ "=" ++ v ++ "=" ++ more) d
  = Raise (ValueError "too many values to unpack (expected 2)").
Proof.
  intros Hk Hv. unfold dict_entry, PyStr.split.
  change (PyStr.split_from "=" 0 "" (k ++ "=" ++ v ++ "=" ++ more))
    with (PyStr.split_from (PyStr.chr "=") 0 "" (k ++ String "=" (v ++ String "=" more))).
  rewrite !split_chr_app by assumption.
  pose proof (split_from_nonempty (PyStr.chr "=") more 0 "") as Hne.
  destruct (PyStr.split_from (PyStr.chr "=") 0 "" more); [done | reflexivity].
Qed.

(** The loop over well-formed tokens inserts the entries in order. *)
Lemma dict_loop_ok (type_ : string -> outcome value) (es : list entry) :
  Forall (entry_ok type_) es ->
  forall d,
    for_each (map entry_token es) (dict_entry type_) d
    = Ok (foldl (fun d e => <[entry_key e := e.2]> d) d es).
Proof.
  induction 1 as [|e es He _ IH]; intros d; simpl; [reflexivity|].
  rewrite (dict_entry_ok _ _ _ He). simpl. apply IH.
Qed.

Lemma insert_loop_other (es : list entry) (k : string) :
  Forall (fun e => entry_key e <> k) es ->
  forall d : gmap string value,
    foldl (fun d e => <[entry_key e := e.2]> d) d es !! k = d !! k.
Proof.
  induction 1 as [|e es He _ IH]; intros d; simpl; [reflexivity|].
  rewrite IH. now apply lookup_insert_ne.
Qed.

(** The last entry of a key decides its value. *)
Lemma insert_loop_last (es1 es2 : list entry) (e : entry) (d : gmap string value) :
  Forall (fun e' => entry_key e' <> entry_key e) es2 ->
  foldl (fun d e => <[entry_key e := e.2]> d) d (es1 ++ e :: es2)%list !! entry_key e
  = Some e.2.
Proof.
  intros Hes2. rewrite foldl_app. simpl.
  rewrite insert_loop_other by assumption. apply lookup_insert_eq.
Qed.

Lemma entry_token_has_separator (e : entry) : PyStr.contains "=" (entry_token e) = true.
Proof.
  unfold entry_token.
  change (PyStr.contains "=" (e.1.1 ++ "=" ++ e.1.2))
    with (PyStr.contains (PyStr.chr "=") (e.1.1 ++ String "=" e.1.2)).
  rewrite contains_chr_app, contains_chr_cons, Ascii.eqb_refl.
  now rewrite orb_true_r.
Qed.

Lemma not_single_dict_path (type_ : string -> outcome value) (ns : namespace)
    (dest : string) (values : list string) :
  ~ single_bare_token values ->
  DictParsingAction_call type_ ns dest values
  = (d ← for_each values (dict_entry type_) ∅; Ok (setattr ns dest (VDict d))).
Proof.
  intros Hns. unfold DictParsingAction_call.
  destruct values as [|v0 [|v1 rest]]; try reflexivity.
  destruct (PyStr.contains "=" v0) eqn:Hc; [reflexivity|].
  exfalso. apply Hns. now exists v0.
Qed.

(** C3. When exactly one token is supplied for a mapping-typed flag and it
    contains no separator, the action coerces that token with the value
    type and stores the coerced scalar itself under the flag's destination;
    no mapping is built.  A failure of the coercion is the failure of the
    action. *)
Theorem C3_single_bare_token_is_stored_as_scalar
    (type_ : string -> outcome value) (ns : namespace) (dest tok : string) :
  PyStr.contains "=" tok = false ->
  DictParsingAction_call type_ ns dest [tok]
  = match type_ tok with
    | Ok x => Ok (<[dest := x]> ns)
    | Raise e => Raise e
    end.
Proof.
  intros Htok. unfold DictParsingAction_call. rewrite Htok. simpl.
  now destruct (type_ tok).
Qed.

Lemma C3_witness :
  PyStr.contains "=" "5" = false /\
  DictParsingAction_call py_int ∅ "a" ["5"]
  = match py_int "5" with
    | Ok x => Ok (<["a" := x]> ∅)
    | Raise e => Raise e
    end.
Proof.
  split; [reflexivity|].
  apply (C3_single_bare_token_is_stored_as_scalar py_int ∅ "a" "5"). reflexivity.
Defined.

(** The scalar shortcut on the example of the specification: the token [5]
    for a flag of integer values yields the integer [5]. *)
Example single_token_5 :
  DictParsingAction_call py_int ∅ "a" ["5"] = Ok (<["a" := VInt 5]> ∅).
Proof. reflexivity. Qed.

Example two_entries :
  DictParsingAction_call py_int ∅ "a" ["foo=1"; "bar=2"]
  = Ok (<["a" := VDict (<["bar" := VInt 2]> (<["foo" := VInt 1]> ∅))]> ∅).
Proof. reflexivity. Qed.

(** C2, as amended.  When the tokens are not a single separator-free
    token, the action cuts each token at every separator and needs exactly
    two pieces, a key (which may be empty) and a value text.  Over
    well-formed tokens it stores a mapping in which the last entry of a key
    decides its value and no other key is bound.  The first token without
    separator, or with more than one, raises a [ValueError]. *)
Theorem C2_entries_need_exactly_one_separator
    (type_ : string -> outcome value) (ns : namespace) (dest : string) (es : list entry) :
  Forall (entry_ok type_) es ->
  (exists d : gmap string value,
      DictParsingAction_call type_ ns dest (map entry_token es)
      = Ok (<[dest := VDict d]> ns)
      /\ (forall es1 e es2,
             es = (es1 ++ e :: es2)%list ->
             Forall (fun e' => entry_key e' <> entry_key e) es2 ->
             d !! entry_key e = Some e.2)
      /\ (forall k, Forall (fun e' => entry_key e' <> k) es -> d !! k = None))
  /\ (forall tok rest,
         PyStr.contains "=" tok = false ->
         ~ single_bare_token (map entry_token es ++ tok :: rest)%list ->
         DictParsingAction_call type_ ns dest (map entry_token es ++ tok :: rest)%list
         = Raise (ValueError "not enough values to unpack (expected 2, got 1)"))
  /\ (forall k v more rest,
         PyStr.contains "=" k = false ->
         PyStr.contains "=" v = false ->
         DictParsingAction_call type_ ns dest
           (map entry_token es ++ (k ++ "=" ++ v ++ "=" ++ more)%string :: rest)%list
         = Raise (ValueError "too many values to unpack (expected 2)")).
Proof.
  intros Hes. repeat split.
  - exists (foldl (fun d e => <[entry_key e := e.2]> d) ∅ es). repeat split.
    + rewrite not_single_dict_path.
      * now rewrite dict_loop_ok.
      * intros (tok & Heq & Htok). destruct es as [|e [|e' es']]; simplify_eq/=.
        now rewrite entry_token_has_separator in Htok.
    + intros es1 e es2 -> Hes2. now apply insert_loop_last.
    + intros k Hk. rewrite insert_loop_other by assumption. apply lookup_empty.
  - intros tok rest Htok Hns. rewrite not_single_dict_path by assumption.
    rewrite for_each_app, dict_loop_ok by assumption. simpl.
    now rewrite dict_entry_bare.
  - intros k v more rest Hk Hv. rewrite not_single_dict_path.
    + rewrite for_each_app, dict_loop_ok by assumption. simpl.
      now rewrite dict_entry_many.
    + intros (tok & Heq & Htok).
      destruct es as [|e es']; simpl in Heq.
      * injection Heq as <- _.
        change (PyStr.contains "=" (k ++ "=" ++ v ++ "=" ++ more))
          with (PyStr.contains (PyStr.chr "=") (k ++ String "=" (v ++ "=" ++ more))) in Htok.
        rewrite contains_chr_app, contains_chr_cons, Ascii.eqb_refl in Htok.
        rewrite orb_true_r in Htok. discriminate.
      * injection Heq as _ Heq. destruct (map entry_token es'); discriminate.
Qed.

Lemma C2_witness :
  Forall (entry_ok py_int) [("a", "1", VInt 1); ("b", "2", VInt 2); ("a", "3", VInt 3)] /\
  exists d : gmap string value,
    DictParsingAction_call py_int ∅ "m" ["a=1"; "b=2"; "a=3"] = Ok (<["m" := VDict d]> ∅)
    /\ d !! "a" = Some (VInt 3).
Proof.
  assert (Hes : Forall (entry_ok py_int)
                  [("a", "1", VInt 1); ("b", "2", VInt 2); ("a", "3", VInt 3)])
    by (repeat constructor).
  split; [exact Hes|].
  destruct (C2_entries_need_exactly_one_separator py_int ∅ "m" _ Hes)
    as [(d & Hd & Hlast & _) _].
  exists d. split; [exact Hd|].
  apply (Hlast [("a", "1", VInt 1); ("b", "2", VInt 2)] ("a", "3", VInt 3) []);
    [reflexivity | constructor].
Defined.

(** C2 as worded fails on a value that contains the separator: cut at the
    first separator, [a=b=c] would bind [a] to [b=c]; the action raises. *)
Lemma C2_counterexample :
  spec_dict_entries (call_type no_other_classes (Class Cstr)) ∅ "m" ["a=b=c"]
  = Ok (<["m" := VDict (<["a" := VStr "b=c"]> ∅)]> ∅)
  /\ DictParsingAction_call (call_type no_other_classes (Class Cstr)) ∅ "m" ["a=b=c"]
     = Raise (ValueError "too many values to unpack (expected 2)").
Proof. split; reflexivity. Qed.

(** An empty key is accepted. *)
Example empty_key_is_stored :
  DictParsingAction_call py_int ∅ "m" ["=5"]
  = Ok (<["m" := VDict (<["" := VInt 5]> ∅)]> ∅).
Proof. reflexivity. Qed.

(** ** The docstring scanner *)

Lemma parse_help_loop_cons (line : string) (rest : list string) (name doc : string)
    (started : bool) :
  parse_help_loop (line :: rest) name doc started
  = if String.eqb line (marker_line name) then parse_help_loop rest name doc true
    else if negb (PyStr.startswith line (PyStr.repeat " " 12)) && started then doc
    else if started then parse_help_loop rest name (doc ++ " " ++ PyStr.strip line) true
    else parse_help_loop rest name doc started.
Proof. reflexivity. Qed.

Lemma parse_help_loop_marker (rest : list string) (name doc : string) (started : bool) :
  parse_help_loop (marker_line name :: rest) name doc started
  = parse_help_loop rest name doc true.
Proof. rewrite parse_help_loop_cons. now rewrite String.eqb_refl. Qed.

Lemma parse_help_loop_other (line : string) (rest : list string) (name doc : string)
    (started : bool) :
  line <> marker_line name ->
  parse_help_loop (line :: rest) name doc started
  = if negb (PyStr.startswith line (PyStr.repeat " " 12)) && started then doc
    else if started then parse_help_loop rest name (doc ++ " " ++ PyStr.strip line) true
    else parse_help_loop rest name doc started.
Proof.
  intros Hne. rewrite parse_help_loop_cons.
  apply String.eqb_neq in Hne. now rewrite Hne.
Qed.

(** Before the marker line nothing is collected. *)
Lemma parse_help_loop_before (pre rest : list string) (name doc : string) :
  Forall (fun l => l <> marker_line name) pre ->
  parse_help_loop (pre ++ rest) name doc false = parse_help_loop rest name doc false.
Proof.
  induction 1 as [|l pre Hl _ IH]; [reflexivity|].
  change ((l :: pre) ++ rest)%list with (l :: (pre ++ rest))%list.
  rewrite parse_help_loop_other by assumption.
  rewrite andb_false_r. exact IH.
Qed.

Lemma parse_help_loop_never (lines : list string) (name doc : string) :
  Forall (fun l => l <> marker_line name) lines ->
  parse_help_loop lines name doc false = doc.
Proof.
  intros H. rewrite <- (app_nil_r lines).
  now rewrite parse_help_loop_before.
Qed.

(** Inside the block every continuation line adds a space and its stripped
    content. *)
Lemma parse_help_loop_block (block rest : list string) (name : string) :
  Forall (fun l => indented12 l /\ l <> marker_line name) block ->
  forall doc,
    parse_help_loop (block ++ rest) name doc true
    = parse_help_loop rest name
        (foldl (fun doc_str line => doc_str ++ " " ++ PyStr.strip line) doc block) true.
Proof.
  induction 1 as [|l block [Hind Hl] _ IH]; intros doc; [reflexivity|].
  change ((l :: block) ++ rest)%list with (l :: (block ++ rest))%list.
  rewrite parse_help_loop_other by assumption.
  unfold indented12 in Hind. rewrite Hind. simpl negb. simpl andb. cbv iota.
  rewrite IH. reflexivity.
Qed.

Lemma parse_help_loop_stop (rest : list string) (name doc : string) :
  rest = [] \/
  (exists stop rest', rest = stop :: rest' /\ ~ indented12 stop /\ stop <> marker_line name) ->
  parse_help_loop rest name doc true = doc.
Proof.
  intros [->|(stop & rest' & -> & Hind & Hne)]; [reflexivity|].
  rewrite parse_help_loop_other by assumption.
  unfold indented12 in Hind. apply not_true_is_false in Hind. now rewrite Hind.
Qed.

Lemma accumulated_from (block : list string) (doc : string) :
  foldl (fun doc_str line => doc_str ++ " " ++ PyStr.strip line) doc block
  = doc ++ accumulated_help block.
Proof.
  unfold accumulated_help. revert doc.
  induction block as [|l block IH] using rev_ind; intros doc.
  - simpl. now rewrite str_app_nil_r.
  - rewrite !foldl_app. simpl. rewrite IH. now rewrite str_app_assoc.
Qed.

Lemma accumulated_help_cons (l : string) (block : list string) :
  accumulated_help (l :: block) = (" " ++ PyStr.strip l) ++ accumulated_help block.
Proof.
  unfold accumulated_help at 1.
  change (foldl (fun doc_str line => doc_str ++ " " ++ PyStr.strip line) "" (l :: block))
    with (foldl (fun doc_str line => doc_str ++ " " ++ PyStr.strip line)
            (" " ++ PyStr.strip l) block).
  apply accumulated_from.
Qed.

(** The accumulated text is the space-joined text behind one more space. *)
Lemma accumulated_help_join (block : list string) :
  block <> [] -> accumulated_help block = " " ++ spec_help_text block.
Proof.
  unfold spec_help_text.
  destruct block as [|l block]; [done|]. intros _. revert l.
  induction block as [|l' block IH]; intros l; rewrite accumulated_help_cons.
  - change (accumulated_help []) with "". now rewrite str_app_nil_r.
  - rewrite IH.
    change (PyStr.join " " (map PyStr.strip (l :: l' :: block)))
      with (PyStr.strip l ++ " " ++ PyStr.join " " (map PyStr.strip (l' :: block))).
    now rewrite !str_app_assoc.
Qed.

(** C6, as amended.  When the text has the marker line of the parameter (8
    spaces, the name, a colon) and then continuation lines indented by 12
    spaces or more, the help text is, for each continuation line in turn, a
    space followed by the stripped content of the line: the space-joined
    text behind one leading space.  The block ends at the end of the text or
    at the first line that is not indented by 12 spaces (a repetition of
    the marker line aside), and the empty string is returned when no line
    is the marker line. *)
Theorem C6_help_text_has_leading_space
    (name : string) (pre block rest : list string) :
  Forall one_line (pre ++ marker_line name :: block ++ rest) ->
  Forall (fun l => l <> marker_line name) pre ->
  Forall (fun l => indented12 l /\ l <> marker_line name) block ->
  rest = [] \/
  (exists stop rest', rest = stop :: rest' /\ ~ indented12 stop /\ stop <> marker_line name) ->
  _parse_help (PyStr.join PyStr.nl (pre ++ marker_line name :: block ++ rest)) name
  = accumulated_help block
  /\ (block <> [] -> accumulated_help block = " " ++ spec_help_text block)
  /\ (forall args,
         Forall (fun l => l <> marker_line name) (PyStr.split args PyStr.nl) ->
         _parse_help args name = "").
Proof.
  intros Hlines Hpre Hblock Hrest. repeat split.
  - unfold _parse_help. unfold PyStr.nl at 2.
    unfold PyStr.nl at 1. rewrite split_join_chr.
    + rewrite parse_help_loop_before by assumption.
      rewrite parse_help_loop_marker, parse_help_loop_block by assumption.
      rewrite parse_help_loop_stop by assumption.
      now rewrite accumulated_from.
    + now destruct pre.
    + exact Hlines.
  - apply accumulated_help_join.
  - intros args Hargs. unfold _parse_help. now apply parse_help_loop_never.
Qed.

Lemma C6_witness :
  Forall one_line
    (adder_pre ++ marker_line "other_number" :: adder_block ++ adder_rest)%list /\
  Forall (fun l => l <> marker_line "other_number") adder_pre /\
  Forall (fun l => indented12 l /\ l <> marker_line "other_number") adder_block /\
  (adder_rest = [] \/
   exists stop rest', adder_rest = stop :: rest' /\ ~ indented12 stop
                      /\ stop <> marker_line "other_number") /\
  _parse_help adder_args "other_number" = accumulated_help adder_block.
Proof.
  assert (H1 : Forall one_line
                 (adder_pre ++ marker_line "other_number" :: adder_block ++ adder_rest)%list)
    by (repeat constructor).
  assert (H2 : Forall (fun l => l <> marker_line "other_number") adder_pre)
    by (repeat constructor; discriminate).
  assert (H3 : Forall (fun l => indented12 l /\ l <> marker_line "other_number") adder_block)
    by (repeat constructor; discriminate).
  assert (H4 : adder_rest = [] \/
               exists stop rest', adder_rest = stop :: rest' /\ ~ indented12 stop
                                  /\ stop <> marker_line "other_number").
  { right. exists "    ", []. repeat split; discriminate. }
  split; [exact H1|]. split; [exact H2|]. split; [exact H3|]. split; [exact H4|].
  exact (proj1 (C6_help_text_has_leading_space "other_number" adder_pre adder_block
                  adder_rest H1 H2 H3 H4)).
Defined.

(** C6 as worded fails by the leading space: on the docstring of the usage
    example the help text of [other_number] is not the space-joined
    content of its two continuation lines. *)
Lemma C6_counterexample :
  _parse_help adder_args "other_number"
  = " The other number to add whose description inexplicably spans multiple lines"
  /\ spec_help_text adder_block
     = "The other number to add whose description inexplicably spans multiple lines".
Proof. split; reflexivity. Qed.

(** A repeated marker line does not end the block. *)
Example repeated_marker_continues :
  _parse_help
    (PyStr.join PyStr.nl ["        a:"; "            x"; "        a:"; "            y"]) "a"
  = " x y".
Proof. reflexivity. Qed.

(** ** Annotations *)

Lemma pyclass_eqb_refl (c : pyclass) : pyclass_eqb c c = true.
Proof. destruct c; simpl; auto using String.eqb_refl. Qed.

Lemma origin_eqb_refl (o : origin) : origin_eqb o o = true.
Proof. destruct o; simpl; auto using String.eqb_refl. Qed.

Lemma annotation_eqb_refl (a : annotation) : annotation_eqb a a = true.
Proof.
  revert a. fix IH 1. intros [c|o args|].
  - apply pyclass_eqb_refl.
  - simpl. rewrite origin_eqb_refl. simpl.
    induction args as [|x xs IHxs]; [reflexivity|].
    rewrite (IH x). exact IHxs.
  - reflexivity.
Qed.

(** ** Optional parameters *)

Lemma default_is_not_None_false (p : Param) :
  default_is_not_None p = false <-> p_default p = Some VNone.
Proof.
  unfold default_is_not_None. destruct (p_default p) as [[]|]; split; congruence.
Qed.

Lemma parse_union_optional (p : Param) (t : annotation) :
  p_annotation p = Optional t ->
  _parse_union p
  = if default_is_not_None p then
      Raise (ValueError ("Argument " ++ p_name p ++ " with Union of type "
                         ++ annotation_str t ++ " and NoneType must have a default of None"))
    else Ok t.
Proof.
  intros Ha. unfold _parse_union. rewrite Ha. unfold Optional. simpl.
  now destruct (default_is_not_None p).
Qed.

Lemma param_kwargs_optional (args : string) (p : Param) (t : annotation) :
  p_annotation p = Optional t ->
  param_kwargs args p
  = if default_is_not_None p then
      Raise (ValueError ("Argument " ++ p_name p ++ " with Union of type "
                         ++ annotation_str t ++ " and NoneType must have a default of None"))
    else
      match get_origin t with
      | Ok OUnion => Raise (TypeError ("Can't help with arg of type " ++ origin_str OUnion))
      | _ => param_kwargs args (with_annotation t p)
      end.
Proof.
  intros Ha. unfold param_kwargs at 1. rewrite Ha.
  change (_get_origin_and_type (Optional t)) with (Some OUnion, @None annotation).
  cbv iota beta. rewrite (parse_union_optional p t Ha).
  destruct (default_is_not_None p); [reflexivity|].
  rewrite bind_Ok.
  unfold param_kwargs, with_annotation. cbn [p_annotation p_name p_default].
  unfold _get_origin_and_type.
  destruct (get_origin t) as [[]|]; reflexivity.
Qed.

(** A parser that is built has resolved every parameter. *)
Lemma make_parser_ok_param (f : callable) (prog : pyobject) (parser : ArgumentParser)
    (p : Param) :
  make_parser f prog = Ok parser ->
  p ∈ signature f ->
  exists kwargs, param_kwargs (split_doc (__doc__ f)).2 p = Ok kwargs.
Proof.
  unfold make_parser. destruct (split_doc (__doc__ f)) as [doc args]. intros Hrun Hin.
  destruct (for_each_ok_inv _ _ _ _ Hrun p Hin) as (s1 & s2 & Hstep).
  unfold add_param in Hstep. simpl.
  destruct (param_kwargs args p) as [k|e]; [eauto | discriminate].
Qed.

(** C4. For a parameter annotated as the union of a type [t] and
    [NoneType]: a parser is built only if the default of the parameter is
    [None]; with any other default, or none, the resolution of the union
    raises a [ValueError] and [make_parser] fails; and with the default
    [None] the union resolves to [t], so that the parameter is handled as
    one annotated [t]. *)
Theorem C4_optional_requires_default_None
    (f : callable) (prog : pyobject) (p : Param) (t : annotation) :
  p ∈ signature f ->
  p_annotation p = Optional t ->
  (forall parser, make_parser f prog = Ok parser -> p_default p = Some VNone)
  /\ (p_default p <> Some VNone ->
      (exists msg, _parse_union p = Raise (ValueError msg))
      /\ exists e, make_parser f prog = Raise e)
  /\ (p_default p = Some VNone ->
      _parse_union p = Ok t
      /\ (get_origin t <> Ok OUnion ->
          forall args, param_kwargs args p = param_kwargs args (with_annotation t p))).
Proof.
  intros Hin Ha.
  assert (Hbuilt : forall parser, make_parser f prog = Ok parser -> p_default p = Some VNone).
  { intros parser Hrun.
    destruct (make_parser_ok_param f prog parser p Hrun Hin) as [k Hk].
    rewrite (param_kwargs_optional _ p t Ha) in Hk.
    destruct (default_is_not_None p) eqn:Hd; [discriminate|].
    now apply default_is_not_None_false. }
  split; [exact Hbuilt|]. split.
  - intros Hd. split.
    + rewrite (parse_union_optional p t Ha).
      destruct (default_is_not_None p) eqn:Hn; [eauto|].
      now apply default_is_not_None_false in Hn.
    + destruct (make_parser f prog) as [parser|e] eqn:Hrun; [|eauto].
      now specialize (Hbuilt parser eq_refl).
  - intros Hd. apply default_is_not_None_false in Hd. split.
    + rewrite (parse_union_optional p t Ha). now rewrite Hd.
    + intros Ho args. rewrite (param_kwargs_optional args p t Ha), Hd.
      destruct (get_origin t) as [[]|]; congruence.
Qed.

Lemma C4_witness :
  param "flag" (Optional (Class Cbool)) (Some VNone) ∈ signature fn_optional_flag /\
  p_annotation (param "flag" (Optional (Class Cbool)) (Some VNone)) = Optional (Class Cbool) /\
  _parse_union (param "flag" (Optional (Class Cbool)) (Some VNone)) = Ok (Class Cbool).
Proof.
  assert (Hin : param "flag" (Optional (Class Cbool)) (Some VNone)
                ∈ signature fn_optional_flag) by apply list_elem_of_here.
  split; [exact Hin|]. split; [reflexivity|].
  exact (proj1 (proj2 (proj2 (C4_optional_requires_default_None fn_optional_flag
                                (ObjValue VNone) _ (Class Cbool) Hin eq_refl)) eq_refl)).
Defined.

(** A default other than [None], and no default. *)
Example optional_int_default_5 :
  make_parser (def "f" None [param "x" (Optional (Class Cint)) (Some (VInt 5))])
    (ObjValue VNone)
  = Raise (ValueError
      "Argument x with Union of type <class 'int'> and NoneType must have a default of None").
Proof. reflexivity. Qed.

Example optional_int_no_default :
  make_parser (def "f" None [param "x" (Optional (Class Cint)) None]) (ObjValue VNone)
  = Raise (ValueError
      "Argument x with Union of type <class 'int'> and NoneType must have a default of None").
Proof. reflexivity. Qed.

(** ** Containers *)

(** C7, as amended.  The container-resolution step does not look into the
    element type: for a list or sequence, for a mapping with string keys and
    for a variadic tuple it returns the element annotation as it is, with
    one-or-more arity, whatever that annotation is.  In particular a
    parameter annotated as a list whose element type is itself a generic
    gets that generic as the type of its flag, and no error is raised. *)
Theorem C7_element_type_is_not_inspected
    (elem : annotation) (rest : list annotation) (kwargs : add_kwargs) :
  _parse_array_like (Generic Olist (elem :: rest)) (Some Olist) kwargs
  = Ok (set_nargs "+" kwargs, Some elem)
  /\ _parse_array_like (Generic OSequence (elem :: rest)) (Some OSequence) kwargs
     = Ok (set_nargs "+" kwargs, Some elem)
  /\ _parse_array_like (Generic Odict (Class Cstr :: elem :: rest)) (Some Odict) kwargs
     = Ok (set_action ActDictParsing (set_nargs "+" kwargs), Some elem)
  /\ _parse_array_like (VariadicTuple elem) (Some Otuple) kwargs
     = Ok (set_nargs "+" kwargs, Some elem)
  /\ forall args name o iargs,
       param_kwargs args (param name (Generic Olist [Generic o iargs]) None)
       = Ok {| kw_nargs := Some "+"; kw_action := None;
               kw_help := Some (_parse_help args name);
               kw_type := Some (Generic o iargs);
               kw_required := Some true; kw_default := None |}.
Proof. repeat split. Qed.

(** C7 as worded fails: the parser of a function with a list of lists is
    built, with [List[int]] as the type of the flag. *)
Lemma C7_counterexample :
  exists parser,
    make_parser fn_list_of_lists (ObjValue VNone) = Ok parser
    /\ a_type <$> last (actions parser) = Some (Some (Generic Olist [Class Cint])).
Proof. eexists. split; reflexivity. Qed.

(** ** Parameter kinds *)

Lemma for_each_map_ext {A S} (g : A -> A) (body : A -> S -> outcome S) (xs : list A) :
  (forall x s, body (g x) s = body x s) ->
  forall s, for_each (map g xs) body s = for_each xs body s.
Proof.
  intros Hg. induction xs as [|x xs IH]; intros s; simpl; [reflexivity|].
  rewrite Hg. destruct (body x s); simpl; [apply IH | reflexivity].
Qed.

Lemma add_param_kind (args : string) (k : param_kind) (p : Param) (parser : ArgumentParser) :
  add_param args (with_kind k p) parser = add_param args p parser.
Proof. destruct p. reflexivity. Qed.

(** C8, as amended.  [make_parser] does not look at the kind of a
    parameter: whatever kinds the parameters of a function are given,
    variadic ones included, the result is the same, so a variadic parameter
    gets a flag from its name, annotation and default like any other and
    raises no error of its own. *)
Theorem C8_parameter_kind_is_ignored
    (f : callable) (prog : pyobject) (kind_of : Param -> param_kind) :
  make_parser (with_signature (map (fun p => with_kind (kind_of p) p) (signature f)) f) prog
  = make_parser f prog.
Proof.
  unfold make_parser, with_signature. cbn [__doc__ __name__ signature].
  destruct (split_doc (__doc__ f)) as [doc args].
  apply for_each_map_ext. intros p s. apply add_param_kind.
Qed.

(** C8 as worded fails: the parser of a function with a variadic positional
    parameter is built, with a required flag [--args]. *)
Lemma C8_counterexample :
  exists parser,
    make_parser fn_var_positional (ObjValue VNone) = Ok parser
    /\ (fun a => (option_strings a, a_required a)) <$> last (actions parser)
       = Some (["--args"], true).
Proof. eexists. split; reflexivity. Qed.

(** ** Tuples *)

(** In a union, a variadic tuple is rejected: every member of its
    [__args__], the ellipsis included, is compared with the element type. *)
Lemma union_with_variadic_tuple_rejected (p : Param) (t : annotation) :
  p_annotation p = Generic OUnion [t; VariadicTuple t] ->
  t <> Ellipsis_ ->
  _parse_union p = Raise AssertionError.
Proof.
  intros Ha Ht. unfold _parse_union. rewrite Ha. unfold VariadicTuple.
  simpl. unfold _enforce_array_like. simpl.
  rewrite (annotation_eqb_refl t). simpl.
  destruct t; [reflexivity | reflexivity | congruence].
Qed.

(** Directly, a variadic tuple is accepted. *)
Lemma variadic_tuple_accepted (t : annotation) (kwargs : add_kwargs) :
  _parse_array_like (VariadicTuple t) (Some Otuple) kwargs
  = Ok (set_nargs "+" kwargs, Some t).
Proof. reflexivity. Qed.

(** A tuple of fixed arity passes the check of the union when all its
    members are the element type. *)
Example union_with_pair_accepted :
  _parse_union (param "x" (Generic OUnion [Class Cint; Generic Otuple [Class Cint; Class Cint]])
                  None)
  = Ok (Generic Otuple [Class Cint; Class Cint]).
Proof. reflexivity. Qed.

Example pair_of_different_types_rejected :
  _parse_array_like (Generic Otuple [Class Cint; Class Cstr]) (Some Otuple) empty_kwargs
  = Raise AssertionError.
Proof. reflexivity. Qed.

(** C9, on the input where the code misses it: [Tuple[int, ...]] builds a
    parser as the annotation of a parameter, and fails the construction
    with an [AssertionError] as the second member of [Union[int, Tuple[int,
    ...]]]. *)
Theorem C9_variadic_tuple_in_union_fails :
  make_parser fn_union_variadic_tuple (ObjValue VNone) = Raise AssertionError
  /\ exists parser,
       make_parser (def "f" None [param "x" (VariadicTuple (Class Cint)) None])
         (ObjValue VNone) = Ok parser.
Proof. split; [reflexivity | eexists; reflexivity]. Qed.

(** ** The decorator *)

Lemma wrapper_dispatches (call_other : string -> string -> outcome value)
    (f : callable) (parser : ArgumentParser) :
  dispatches call_other f parser (wrapper call_other f parser).
Proof.
  split.
  - intros st. unfold wrapper. rewrite map_size_empty. simpl.
    now destruct (parse_args call_other parser (drop 1 (sys_argv st))).
  - intros args kwargs st Hne. unfold wrapper.
    destruct (size kwargs) as [|n] eqn:Hsize.
    + apply map_size_empty_iff in Hsize. subst kwargs.
      destruct Hne as [Hargs|Hkw]; [|done].
      destruct args; [done | reflexivity].
    + now rewrite andb_false_r.
Qed.

(** C1.  For every function [f] that [typeo] wraps, bare or through
    [wrapperwrapper], the wrapper closes over the parser that
    [make_parser] built for [f], and it dispatches: called without any
    argument it reads the argument vector, parses it and calls [f] with
    the parsed attributes as keyword arguments; called with a positional or
    keyword argument it is the call of [f] with exactly those arguments, so
    it parses nothing and reads the argument vector only if [f] does.  In
    both cases its result is the result of [f]. *)
Theorem C1_wrapper_dispatch
    (call_other : string -> string -> outcome value) (f : callable) :
  (forall kwargs w,
      typeo call_other [ObjCallable f] kwargs = Ok (Wrapper w) ->
      exists parser,
        make_parser f (ObjValue VNone) = Ok parser /\ dispatches call_other f parser w)
  /\ (forall args kwargs ww w,
         typeo call_other args kwargs = Ok (WrapperWrapper ww) ->
         ww f = Ok w ->
         exists parser,
           make_parser_call f args kwargs = Ok parser /\ dispatches call_other f parser w).
Proof.
  split.
  - intros kwargs w Ht. unfold typeo in Ht.
    destruct (make_parser f (ObjValue VNone)) as [parser|e]; [|discriminate].
    simpl in Ht. injection Ht as <-.
    exists parser. split; [reflexivity | apply wrapper_dispatches].
  - intros args kwargs ww w Ht Hw.
    assert (Hww : ww = fun g => parser ← make_parser_call g args kwargs;
                                Ok (wrapper call_other g parser)).
    { unfold typeo in Ht.
      destruct args as [|[g|v] [|a args]]; try (injection Ht as <-; reflexivity).
      destruct (make_parser g (ObjValue VNone)); discriminate. }
    subst ww. cbv beta in Hw.
    destruct (make_parser_call f args kwargs) as [parser|e]; [|discriminate].
    simpl in Hw. injection Hw as <-.
    exists parser. split; [reflexivity | apply wrapper_dispatches].
Qed.

Lemma C1_witness :
  exists w,
    typeo no_other_classes [ObjCallable fn_leading_underscore] ∅ = Ok (Wrapper w)
    /\ exists parser,
         make_parser fn_leading_underscore (ObjValue VNone) = Ok parser
         /\ dispatches no_other_classes fn_leading_underscore parser w.
Proof.
  eexists. split; [reflexivity|].
  apply (proj1 (C1_wrapper_dispatch no_other_classes fn_leading_underscore) ∅).
  reflexivity.
Defined.

(** A call with a keyword argument returns what the function returns and
    leaves the argument vector unread. *)
Example explicit_call_does_not_parse :
  forall parser,
    wrapper no_other_classes fn_leading_underscore parser [] (<["_a" := VInt 1]> ∅)
      {| sys_argv := ["prog"; "--zzz"]; argv_reads := 0; stdout := [] |}
    = (Ok (VDict (<["_a" := VInt 1]> ∅)),
       {| sys_argv := ["prog"; "--zzz"]; argv_reads := 0; stdout := [] |}).
Proof. intros parser. reflexivity. Qed.

(** ** Flags *)

(** The action of a boolean parameter: never required, no value token, the
    negation of the truth value of the default when the flag is given, and
    the truth value of the default, not the default itself, when it is
    not. *)
Lemma bool_param_action (args : string) (p : Param) (flag dest : string) :
  p_annotation p = Class Cbool ->
  (param_kwargs args p ≫= make_action flag dest)
  = Ok {| option_strings := [flag]; dest := dest; a_nargs := NargsZero;
          a_const := VBool (negb (flag_default (p_default p)));
          a_default := Some (VBool (flag_default (p_default p)));
          a_type := None; a_required := false;
          a_help := _parse_help args (p_name p); a_kind := KStoreConst |}.
Proof.
  intros Ha. unfold param_kwargs. rewrite Ha. simpl.
  destruct (p_default p) as [d|]; simpl; [|reflexivity].
  destruct (truthy d); reflexivity.
Qed.

(** Parsing with the flag of a boolean parameter absent and present. *)
Lemma bool_flag_parse (d : option value) :
  exists parser,
    make_parser (def "f" None [param "flag" (Class Cbool) d]) (ObjValue VNone) = Ok parser
    /\ parse_args no_other_classes parser []
       = Ok (<["flag" := VBool (flag_default d)]> ∅)
    /\ parse_args no_other_classes parser ["--flag"]
       = Ok (<["flag" := VBool (negb (flag_default d))]> ∅).
Proof.
  destruct d as [v|]; [|eexists; repeat split; reflexivity].
  unfold make_parser, def. simpl. unfold add_param, param_kwargs. simpl.
  destruct (truthy v); eexists; repeat split; reflexivity.
Qed.

(** Without default: absent is false, present is true. *)
Example flag_without_default :
  exists parser,
    make_parser (def "f" None [param "flag" (Class Cbool) None]) (ObjValue VNone) = Ok parser
    /\ parse_args no_other_classes parser [] = Ok (<["flag" := VBool false]> ∅)
    /\ parse_args no_other_classes parser ["--flag"] = Ok (<["flag" := VBool true]> ∅).
Proof. exact (bool_flag_parse None). Qed.

(** With the default [True]: absent is true, present is false. *)
Example flag_with_default_True :
  exists parser,
    make_parser (def "f" None [param "flag" (Class Cbool) (Some (VBool true))])
      (ObjValue VNone) = Ok parser
    /\ parse_args no_other_classes parser [] = Ok (<["flag" := VBool true]> ∅)
    /\ parse_args no_other_classes parser ["--flag"] = Ok (<["flag" := VBool false]> ∅).
Proof. exact (bool_flag_parse (Some (VBool true))). Qed.

(** C5, on the input where the code misses it: for [flag: Optional[bool] =
    None], and likewise for [flag: bool = None], the flag is not required
    and takes no token, its presence yields [True], the negation of the
    default, but its absence yields [False] and not the default [None]. *)
Theorem C5_absent_flag_with_default_None_is_False :
  (exists parser,
      make_parser fn_optional_flag (ObjValue VNone) = Ok parser
      /\ parse_args no_other_classes parser [] = Ok (<["flag" := VBool false]> ∅)
      /\ parse_args no_other_classes parser ["--flag"] = Ok (<["flag" := VBool true]> ∅))
  /\ (exists parser,
         make_parser (def "f" None [param "flag" (Class Cbool) (Some VNone)]) (ObjValue VNone)
         = Ok parser
         /\ parse_args no_other_classes parser [] = Ok (<["flag" := VBool false]> ∅)
         /\ parse_args no_other_classes parser ["--flag"] = Ok (<["flag" := VBool true]> ∅)).
Proof. split; eexists; repeat split; reflexivity. Qed.

(** ** Flag names and destinations *)

Lemma join_cons (sep x : string) (rest : list string) :
  rest <> [] -> PyStr.join sep (x :: rest) = x ++ sep ++ PyStr.join sep rest.
Proof. now destruct rest. Qed.

Lemma replace_chr_from (a b : ascii) (s : string) :
  forall cur,
    PyStr.join (PyStr.chr b) (PyStr.split_from (PyStr.chr a) 0 cur s)
    = cur ++ subst_char a b s.
Proof.
  induction s as [|c s IH]; intros cur.
  - simpl. now rewrite str_app_nil_r.
  - rewrite split_chr_step. simpl subst_char. rewrite (Ascii.eqb_sym c a).
    destruct (Ascii.eqb a c).
    + rewrite join_cons by apply split_from_nonempty. now rewrite IH.
    + rewrite IH. now rewrite str_app_assoc.
Qed.

(** Replacing a character by a character. *)
Lemma replace_chr (a b : ascii) (s : string) :
  PyStr.replace s (PyStr.chr a) (PyStr.chr b) = subst_char a b s.
Proof. unfold PyStr.replace, PyStr.split. now rewrite replace_chr_from. Qed.

Lemma subst_char_free (a b : ascii) (s : string) :
  a <> b -> PyStr.contains (PyStr.chr a) (subst_char a b s) = false.
Proof.
  intros Hab. induction s as [|c s IH]; [reflexivity|].
  simpl subst_char. rewrite contains_chr_cons, IH, orb_false_r.
  destruct (Ascii.eqb c a) eqn:Hc.
  - now apply Ascii.eqb_neq.
  - rewrite Ascii.eqb_sym. exact Hc.
Qed.


Lemma lstrip_char_free (c d : ascii) (s : string) :
  PyStr.contains (PyStr.chr c) s = false ->
  PyStr.contains (PyStr.chr c) (PyStr.lstrip_char d s) = false.
Proof.
  induction s as [|x s IH]; intros Hs; [reflexivity|].
  simpl. destruct (Ascii.eqb x d); [|exact Hs].
  rewrite contains_chr_cons in Hs. apply orb_false_iff in Hs as [_ Hs]. now apply IH.
Qed.

Lemma lstrip_char_head (c x : ascii) (s r : string) :
  PyStr.lstrip_char c s = String x r -> x <> c.
Proof.
  induction s as [|y s IH]; simpl; [discriminate|].
  destruct (Ascii.eqb y c) eqn:Hy; [exact IH|].
  intros [= -> ->]. now apply Ascii.eqb_neq.
Qed.

Lemma infer_dest_flag_of_eq (name : string) :
  infer_dest (flag_of name)
  = subst_char "-" "_" (PyStr.lstrip_char "-" (subst_char "_" "-" name)).
Proof.
  unfold infer_dest, flag_of.
  change (PyStr.replace name "_" "-") with (PyStr.replace name (PyStr.chr "_") (PyStr.chr "-")).
  rewrite replace_chr.
  change (PyStr.lstrip_char "-" ("--" ++ subst_char "_" "-" name))
    with (PyStr.lstrip_char "-" (subst_char "_" "-" name)).
  exact (replace_chr "-" "_" _).
Qed.


(** The destination never starts with an underscore, so it is not the
    name of a parameter whose name does. *)
Lemma infer_dest_of_underscore_name (name : string) :
  PyStr.startswith name "_" = true ->
  infer_dest (flag_of name) <> name.
Proof.
  intros Hlead. rewrite infer_dest_flag_of_eq.
  destruct name as [|c name]; [discriminate|].
  change (PyStr.startswith (String c name) "_") with (String.prefix (PyStr.chr "_") (String c name))
    in Hlead.
  rewrite prefix_chr in Hlead. apply Ascii.eqb_eq in Hlead. subst c.
  pose proof (subst_char_free "_" "-" (String "_" name) ltac:(discriminate)) as Hfree.
  apply (lstrip_char_free _ "-") in Hfree.
  destruct (PyStr.lstrip_char "-" (subst_char "_" "-" (String "_" name))) as [|x r] eqn:Hs.
  - discriminate.
  - apply lstrip_char_head in Hs.
    rewrite contains_chr_cons in Hfree. apply orb_false_iff in Hfree as [Hx _].
    simpl. apply Ascii.eqb_neq in Hs. rewrite Hs.
    intros [= ->]. discriminate.
Qed.

Lemma make_action_dest (flag d : string) (k : add_kwargs) (a : Action) :
  make_action flag d k = Ok a -> option_strings a = [flag] /\ dest a = d.
Proof.
  unfold make_action. intros Ha.
  repeat (match type of Ha with
          | context [match ?x with _ => _ end] => destruct x
          end; simpl in Ha; try discriminate);
    inversion Ha; now subst.
Qed.

(** ** The keys of the parsed mapping *)

(** Every action that [make_action] builds has a default. *)
Lemma make_action_default (flag d : string) (k : add_kwargs) (a : Action) :
  make_action flag d k = Ok a -> is_Some (a_default a) /\ a_kind a <> KHelp.
Proof.
  unfold make_action. intros Ha.
  repeat (match type of Ha with
          | context [match ?x with _ => _ end] => destruct x
          end; simpl in Ha; try discriminate);
    inversion Ha; subst; simpl; split; eauto; discriminate.
Qed.

Lemma add_param_action (args : string) (p : Param) (parser parser' : ArgumentParser) :
  add_param args p parser = Ok parser' ->
  exists a,
    actions parser' = (actions parser ++ [a])%list
    /\ dest a = infer_dest (flag_of (p_name p))
    /\ is_Some (a_default a) /\ a_kind a <> KHelp.
Proof.
  unfold add_param. destruct (param_kwargs args p) as [k|e]; [|discriminate].
  rewrite bind_Ok. unfold add_argument.
  destruct (String.eqb _ ""); [discriminate|].
  destruct (make_action _ _ k) as [a|e] eqn:Ha; [|discriminate].
  rewrite bind_Ok.
  destruct (negb _); [discriminate|]. destruct (existsb _ _); [discriminate|].
  intros [= <-]. exists a. split; [reflexivity|].
  split; [now apply make_action_dest in Ha | now apply make_action_default in Ha].
Qed.

(** The actions of the parser of a function: [help], then one action per
    parameter in order, each with a default and with the inferred
    destination. *)
Lemma add_params_actions (args : string) (ps : list Param) :
  forall p0 p1,
    for_each ps (add_param args) p0 = Ok p1 ->
    exists acts,
      actions p1 = (actions p0 ++ acts)%list
      /\ map dest acts = map (fun p => infer_dest (flag_of (p_name p))) ps
      /\ Forall (fun a => is_Some (a_default a) /\ a_kind a <> KHelp) acts.
Proof.
  induction ps as [|p ps IH]; intros p0 p1 Hps; simpl in Hps.
  - injection Hps as <-. exists []. now rewrite app_nil_r.
  - destruct (add_param args p p0) as [p0'|e] eqn:Hadd; [|discriminate].
    rewrite bind_Ok in Hps.
    destruct (IH _ _ Hps) as (acts & Hacts & Hdests & Hall).
    destruct (add_param_action _ _ _ _ Hadd) as (a & Ha & Hd & Hdef).
    exists (a :: acts). split; [|split].
    + rewrite Hacts, Ha. now rewrite <- app_assoc.
    + simpl. now rewrite Hd, Hdests.
    + now constructor.
Qed.



Section ParsedKeys.

Variable call_other : string -> string -> outcome value.
Variable acts : list Action.
Hypothesis acts_store :
  Forall (fun a => a_kind a = KHelp \/ is_Some (a_default a)) acts.











End ParsedKeys.



(** C10, on the input where the code misses it: the parameter [_a] gets the
    flag [---a], whose destination is [a]; a successful parse of [---a 1] is
    keyed by [a], and the wrapper passes [a=1] to a function whose only
    parameter is [_a]. *)
Theorem C10_leading_underscore_is_dropped :
  exists parser,
    make_parser fn_leading_underscore (ObjValue VNone) = Ok parser
    /\ map option_strings (actions parser) = [["-h"; "--help"]; ["---a"]]
    /\ map dest (actions parser) = ["help"; "a"]
    /\ parse_args no_other_classes parser ["---a"; "1"] = Ok (<["a" := VInt 1]> ∅)
    /\ wrapper no_other_classes fn_leading_underscore parser [] ∅
         {| sys_argv := ["prog"; "---a"; "1"]; argv_reads := 0; stdout := [] |}
       = (Ok (VDict (<["a" := VInt 1]> ∅)),
          {| sys_argv := ["prog"; "---a"; "1"]; argv_reads := 1; stdout := [] |}).
Proof. eexists. repeat split; reflexivity. Qed.

(** The usage example of the docstring of [typeo]. *)
Example adder_other_number :
  exists parser,
    make_parser
      (def "f" (Some ("Adds two numbers together" ++ PyStr.nl ++ PyStr.nl
                      ++ "    Args:" ++ PyStr.nl ++ adder_args))
         [param "a" (Class Cint) None; param "other_number" (Class Cint) (Some (VInt 1))])
      (ObjValue VNone) = Ok parser
    /\ parse_args no_other_classes parser ["--a"; "1"; "--other-number"; "2"]
       = Ok (<["other_number" := VInt 2]> (<["a" := VInt 1]> ∅))
    /\ parse_args no_other_classes parser ["--a"; "4"]
       = Ok (<["other_number" := VInt 1]> (<["a" := VInt 4]> ∅))
    /\ parse_args no_other_classes parser [] = Raise (SystemExit 2).
Proof. eexists. repeat split; reflexivity. Qed.

(** A malformed entry is not reported as a usage error: the [ValueError] of
    the action leaves [parse_args] as it is. *)
Example malformed_entry_is_not_a_usage_error :
  exists parser,
    make_parser (def "f" None [param "m" (Generic Odict [Class Cstr; Class Cint]) None])
      (ObjValue VNone) = Ok parser
    /\ parse_args no_other_classes parser ["--m"; "a=1"; "b"]
       = Raise (ValueError "not enough values to unpack (expected 2, got 1)")
    /\ parse_args no_other_classes parser ["--m"; "a=1"; "b=2"]
       = Ok (<["m" := VDict (<["b" := VInt 2]> (<["a" := VInt 1]> ∅))]> ∅)
    /\ parse_args no_other_classes parser ["--m"; "5"] = Ok (<["m" := VInt 5]> ∅)
    /\ parse_args no_other_classes parser [] = Raise (SystemExit 2).
Proof. eexists. repeat split; reflexivity. Qed.

(** A union of a scalar type and a list of it always yields a list. *)
Example union_with_list :
  exists parser,
    make_parser
      (def "f" None [param "x" (Generic OUnion [Class Cint; Generic Olist [Class Cint]]) None])
      (ObjValue VNone) = Ok parser
    /\ parse_args no_other_classes parser ["--x"; "1"; "2"; "3"]
       = Ok (<["x" := VList [VInt 1; VInt 2; VInt 3]]> ∅)
    /\ parse_args no_other_classes parser ["--x"; "5"] = Ok (<["x" := VList [VInt 5]]> ∅).
Proof. eexists. repeat split; reflexivity. Qed.

(** Required scalar parameters, with the flags in either order. *)
Example flags_in_any_order :
  exists parser,
    make_parser (def "f" None [param "a" (Class Cint) None; param "b" (Class Cstr) None])
      (ObjValue VNone) = Ok parser
    /\ parse_args no_other_classes parser ["--a"; "1"; "--b"; "x"]
       = Ok (<["b" := VStr "x"]> (<["a" := VInt 1]> ∅))
    /\ parse_args no_other_classes parser ["--b"; "x"; "--a"; "1"]
       = Ok (<["b" := VStr "x"]> (<["a" := VInt 1]> ∅)).
Proof. eexists. repeat split; reflexivity. Qed.

(** * Further properties *)

(** ** Equality of annotations *)

Lemma pyclass_eqb_eq (a b : pyclass) : pyclass_eqb a b = true -> a = b.
Proof.
  destruct a, b; simpl; try discriminate; try reflexivity.
  intros H. apply String.eqb_eq in H. now subst.
Qed.

Lemma origin_eqb_eq (a b : origin) : origin_eqb a b = true -> a = b.
Proof.
  destruct a, b; simpl; try discriminate; try reflexivity.
  intros H. apply String.eqb_eq in H. now subst.
Qed.

Lemma annotation_eqb_eq (a b : annotation) : annotation_eqb a b = true -> a = b.
Proof.
  revert a b. fix IH 1. intros [c|o xs|] [c'|o' ys|]; simpl; try discriminate.
  - intros H. apply pyclass_eqb_eq in H. now subst.
  - intros H. apply andb_true_iff in H as [Ho Hargs].
    apply origin_eqb_eq in Ho. subst o'. f_equal.
    revert ys Hargs. induction xs as [|x xs IHxs]; intros [|y ys]; try discriminate.
    + reflexivity.
    + intros H. apply andb_true_iff in H as [Hx Hxs].
      f_equal; [now apply IH | now apply IHxs].
  - reflexivity.
Qed.

Lemma annotation_eqb_neq (a b : annotation) : a <> b -> annotation_eqb a b = false.
Proof.
  intros Hne. destruct (annotation_eqb a b) eqn:H; [|reflexivity].
  now apply annotation_eqb_eq in H.
Qed.

Lemma annotation_eqb_iff (a b : annotation) : annotation_eqb a b = true <-> a = b.
Proof. split; [apply annotation_eqb_eq | intros ->; apply annotation_eqb_refl]. Qed.

(** ** Tuples, mappings and unknown containers *)

Lemma tuple_check_spec (t : annotation) (l : list annotation) :
  for_each l
    (fun arg _ => if is_not_Ellipsis arg then assert (annotation_eqb arg t) else Ok tt) tt
  = if forallb (fun a => negb (is_not_Ellipsis a) || annotation_eqb a t) l
    then Ok tt else Raise AssertionError.
Proof.
  induction l as [|a l IH]; [reflexivity|].
  rewrite for_each_cons. simpl forallb.
  destruct (is_not_Ellipsis a); simpl.
  - destruct (annotation_eqb a t); simpl; [exact IH | reflexivity].
  - exact IH.
Qed.

Lemma tuple_members_ok (t : annotation) (l : list annotation) :
  forallb (fun a => negb (is_not_Ellipsis a) || annotation_eqb a t) l = true
  <-> Forall (fun a => a = Ellipsis_ \/ a = t) l.
Proof.
  rewrite forallb_forall, Forall_forall. split; intros H a Ha.
  - apply list_elem_of_In in Ha. specialize (H a Ha).
    apply orb_true_iff in H as [H|H].
    + left. now destruct a.
    + right. now apply annotation_eqb_eq.
  - apply list_elem_of_In in Ha. destruct (H a Ha) as [->| ->]; [reflexivity|].
    rewrite annotation_eqb_refl. apply orb_true_r.
Qed.

(** X1. A tuple annotation is accepted exactly when every member after the
    first is the ellipsis or equals the first member; it then yields the
    first member as the type of the flag, with one-or-more arity.  Any
    other tuple fails the assertion. *)
Theorem tuple_is_homogeneous_or_rejected
    (t : annotation) (rest : list annotation) (kwargs : add_kwargs) :
  (Forall (fun a => a = Ellipsis_ \/ a = t) rest ->
   _parse_array_like (Generic Otuple (t :: rest)) (Some Otuple) kwargs
   = Ok (set_nargs "+" kwargs, Some t))
  /\ (~ Forall (fun a => a = Ellipsis_ \/ a = t) rest ->
      _parse_array_like (Generic Otuple (t :: rest)) (Some Otuple) kwargs
      = Raise AssertionError).
Proof.
  assert (Hrun : _parse_array_like (Generic Otuple (t :: rest)) (Some Otuple) kwargs
                 = (_ ← for_each rest
                          (fun arg _ => if is_not_Ellipsis arg
                                        then assert (annotation_eqb arg t) else Ok tt) tt;
                    Ok (set_nargs "+" kwargs, Some t))) by reflexivity.
  rewrite Hrun, tuple_check_spec. split; intros H.
  - apply tuple_members_ok in H. now rewrite H.
  - destruct (forallb _ rest) eqn:Hf; [|reflexivity].
    now apply tuple_members_ok in Hf.
Qed.

Lemma tuple_is_homogeneous_or_rejected_witness :
  Forall (fun a => a = Ellipsis_ \/ a = Class Cint) [Class Cint; Ellipsis_]
  /\ _parse_array_like (Generic Otuple [Class Cint; Class Cint; Ellipsis_]) (Some Otuple)
       empty_kwargs
     = Ok (set_nargs "+" empty_kwargs, Some (Class Cint)).
Proof.
  assert (H : Forall (fun a => a = Ellipsis_ \/ a = Class Cint) [Class Cint; Ellipsis_])
    by (repeat constructor; auto).
  split; [exact H|].
  exact (proj1 (tuple_is_homogeneous_or_rejected (Class Cint) _ empty_kwargs) H).
Defined.

(** X2. A mapping annotation whose key type is not [str] fails the
    assertion, whatever its value type; with the key type [str] it yields
    the value type, one-or-more arity and the dictionary action. *)
Theorem mapping_key_must_be_str
    (k v : annotation) (rest : list annotation) (kwargs : add_kwargs) :
  (k <> Class Cstr ->
   _parse_array_like (Generic Odict (k :: v :: rest)) (Some Odict) kwargs
   = Raise AssertionError)
  /\ (k = Class Cstr ->
      _parse_array_like (Generic Odict (k :: v :: rest)) (Some Odict) kwargs
      = Ok (set_action ActDictParsing (set_nargs "+" kwargs), Some v)).
Proof.
  split.
  - intros Hk. apply annotation_eqb_neq in Hk.
    unfold _parse_array_like. simpl. now rewrite Hk.
  - intros ->. reflexivity.
Qed.

Lemma mapping_key_must_be_str_witness :
  Class Cint <> Class Cstr
  /\ _parse_array_like (Generic Odict [Class Cint; Class Cint]) (Some Odict) empty_kwargs
     = Raise AssertionError.
Proof.
  assert (H : Class Cint <> Class Cstr) by discriminate.
  split; [exact H|].
  exact (proj1 (mapping_key_must_be_str (Class Cint) (Class Cint) [] empty_kwargs) H).
Defined.

(** X3. A parameter annotated with a generic whose origin is none of
    list, tuple, dict, Sequence and Union is refused with a [TypeError]
    naming the origin, and a function that has such a parameter gets no
    parser. *)
Theorem unknown_container_is_refused
    (f : callable) (prog : pyobject) (p : Param) (n : string) (cargs : list annotation) :
  p ∈ signature f ->
  p_annotation p = Generic (Oother n) cargs ->
  (forall args,
      param_kwargs args p = Raise (TypeError ("Can't help with arg of type " ++ n)))
  /\ exists e, make_parser f prog = Raise e.
Proof.
  intros Hin Ha.
  assert (Hp : forall args,
             param_kwargs args p = Raise (TypeError ("Can't help with arg of type " ++ n))).
  { intros args. unfold param_kwargs. rewrite Ha. reflexivity. }
  split; [exact Hp|].
  destruct (make_parser f prog) as [parser|e] eqn:Hrun; [|eauto].
  destruct (make_parser_ok_param f prog parser p Hrun Hin) as [k Hk].
  rewrite Hp in Hk. discriminate.
Qed.

Lemma unknown_container_is_refused_witness :
  param "x" (Generic (Oother "<class 'set'>") [Class Cint]) None
    ∈ signature (def "f" None [param "x" (Generic (Oother "<class 'set'>") [Class Cint]) None])
  /\ exists e,
       make_parser (def "f" None [param "x" (Generic (Oother "<class 'set'>") [Class Cint]) None])
         (ObjValue VNone) = Raise e.
Proof.
  assert (Hin : param "x" (Generic (Oother "<class 'set'>") [Class Cint]) None
                  ∈ signature (def "f" None
                                 [param "x" (Generic (Oother "<class 'set'>") [Class Cint]) None]))
    by apply list_elem_of_here.
  split; [exact Hin|].
  exact (proj2 (unknown_container_is_refused _ (ObjValue VNone) _ "<class 'set'>" [Class Cint]
                  Hin eq_refl)).
Defined.

(** ** Unions *)









(** X6. A union whose second member is a class of which [None] is no
    instance, such as [Union[int, str]], is refused with a [TypeError],
    whatever the name and the default of the parameter. *)
Theorem union_of_two_classes_is_refused
    (p : Param) (t : annotation) (c : pyclass) (rest : list annotation) :
  p_annotation p = Generic OUnion (t :: Class c :: rest) ->
  c <> CNoneType ->
  c <> Cobject ->
  _parse_union p
  = Raise (TypeError ("Arg " ++ p_name p ++ " has Union of types "
                      ++ annotation_str t ++ " and " ++ annotation_str (Class c))).
Proof.
  intros Ha Hn Ho. unfold _parse_union. rewrite Ha.
  assert (Henf : _enforce_array_like (Generic OUnion (t :: Class c :: rest)) t (p_name p)
                 = Raise (TypeError ("Arg " ++ p_name p ++ " has Union of types "
                                     ++ annotation_str t ++ " and "
                                     ++ annotation_str (Class c)))) by reflexivity.
  assert (Hinst : isinstance_None (Class c) = Ok false) by (now destruct c).
  cbn [get_args]. rewrite bind_Ok.
  change (index (t :: Class c :: rest) 0) with (Ok t : outcome annotation).
  rewrite bind_Ok.
  change (index (t :: Class c :: rest) 1) with (Ok (Class c) : outcome annotation).
  rewrite bind_Ok, Hinst, bind_Ok. cbv iota. rewrite Henf.
  cbn [try_except]. cbn [exn_str].
  now destruct (PyStr.contains "Subscripted" _).
Qed.

Lemma union_of_two_classes_is_refused_witness :
  p_annotation (param "x" (Generic OUnion [Class Cint; Class Cstr]) None)
  = Generic OUnion (Class Cint :: Class Cstr :: [])
  /\ Cstr <> CNoneType /\ Cstr <> Cobject
  /\ _parse_union (param "x" (Generic OUnion [Class Cint; Class Cstr]) None)
     = Raise (TypeError "Arg x has Union of types <class 'int'> and <class 'str'>").
Proof.
  split; [reflexivity|]. split; [discriminate|]. split; [discriminate|].
  apply (union_of_two_classes_is_refused
           (param "x" (Generic OUnion [Class Cint; Class Cstr]) None)
           (Class Cint) Cstr []); [reflexivity | discriminate | discriminate].
Defined.

(** ** More on the dictionary parsing action *)

Lemma dict_entry_key_value (type_ : string -> outcome value) (k v : string)
    (d : gmap string value) :
  PyStr.contains "=" k = false ->
  PyStr.contains "=" v = false ->
  dict_entry type_ (k ++ "=" ++ v) d = (x ← type_ v; Ok (<[k := x]> d)).
Proof.
  intros Hk Hv. unfold dict_entry.
  change (PyStr.split (k ++ "=" ++ v) "=")
    with (PyStr.split (PyStr.join (PyStr.chr "=") [k; v]) (PyStr.chr "=")).
  rewrite split_join_chr; [reflexivity|done|by repeat constructor].
Qed.

Lemma key_value_has_separator (k v : string) : PyStr.contains "=" (k ++ "=" ++ v) = true.
Proof.
  change (PyStr.contains "=" (k ++ "=" ++ v))
    with (PyStr.contains (PyStr.chr "=") (k ++ String "=" v)).
  rewrite contains_chr_app, contains_chr_cons, Ascii.eqb_refl. now rewrite orb_true_r.
Qed.

(** X7. In the mapping path the failure of the value type on the value
    of a token is the failure of the action: after any number of
    well-formed tokens, a token [k=v] whose value the type refuses raises
    the exception of the type, unchanged, and nothing is stored. *)
Theorem dict_action_raises_what_the_type_raises
    (type_ : string -> outcome value) (ns : namespace) (dest : string)
    (es : list entry) (k v : string) (rest : list string) (e : exn) :
  Forall (entry_ok type_) es ->
  PyStr.contains "=" k = false ->
  PyStr.contains "=" v = false ->
  type_ v = Raise e ->
  DictParsingAction_call type_ ns dest (map entry_token es ++ (k ++ "=" ++ v)%string :: rest)%list
  = Raise e.
Proof.
  intros Hes Hk Hv He. rewrite not_single_dict_path.
  - rewrite for_each_app, dict_loop_ok by assumption. rewrite bind_Ok, for_each_cons.
    rewrite dict_entry_key_value by assumption. now rewrite He.
  - intros (tok & Heq & Htok). destruct es as [|e0 es']; simpl in Heq.
    + injection Heq as <- _. now rewrite key_value_has_separator in Htok.
    + injection Heq as _ Heq. destruct (map entry_token es'); discriminate.
Qed.

Lemma dict_action_raises_what_the_type_raises_witness :
  Forall (entry_ok py_int) [("a", "1", VInt 1)]
  /\ PyStr.contains "=" "b" = false
  /\ PyStr.contains "=" "x" = false
  /\ py_int "x" = Raise (ValueError "invalid literal for int() with base 10: 'x'")
  /\ DictParsingAction_call py_int ∅ "m" ["a=1"; "b=x"; "c=3"]
     = Raise (ValueError "invalid literal for int() with base 10: 'x'").
Proof.
  assert (Hes : Forall (entry_ok py_int) [("a", "1", VInt 1)]) by (repeat constructor).
  split; [exact Hes|]. split; [reflexivity|]. split; [reflexivity|]. split; [reflexivity|].
  exact (dict_action_raises_what_the_type_raises py_int ∅ "m" _ "b" "x" ["c=3"] _
           Hes eq_refl eq_refl eq_refl).
Defined.

Lemma dict_action_value (type_ : string -> outcome value) (ns ns' : namespace)
    (dest : string) (values : list string) :
  DictParsingAction_call type_ ns dest values = Ok ns' ->
  exists v,
    ns' = setattr ns dest v
    /\ forall ns2, DictParsingAction_call type_ ns2 dest values = Ok (setattr ns2 dest v).
Proof.
  unfold DictParsingAction_call. intros H.
  assert (Hdict : forall r,
             (dict_value ← for_each values (dict_entry type_) ∅;
              Ok (setattr ns dest (VDict dict_value))) = Ok r ->
             exists v, r = setattr ns dest v
                       /\ forall ns2,
                            (dict_value ← for_each values (dict_entry type_) ∅;
                             Ok (setattr ns2 dest (VDict dict_value)))
                            = Ok (setattr ns2 dest v)).
  { intros r Hr. destruct (for_each values (dict_entry type_) ∅) as [dv|e]; [|discriminate].
    injection Hr as <-. eauto. }
  destruct values as [|v0 [|v1 rest]]; [now apply Hdict | | now apply Hdict].
  destruct (negb (PyStr.contains "=" v0)); [|now apply Hdict].
  destruct (type_ v0) as [x|e]; [|discriminate]. injection H as <-. eauto.
Qed.

(** X8. A successful run of the action binds the destination and leaves
    every other attribute of the namespace as it was; what the destination
    held before is discarded, so a flag that is given twice keeps the
    mapping of its last occurrence only. *)
Theorem dict_action_replaces_its_destination
    (type_ : string -> outcome value) (ns ns' : namespace) (dest : string)
    (values : list string) :
  DictParsingAction_call type_ ns dest values = Ok ns' ->
  is_Some (ns' !! dest)
  /\ (forall k, k <> dest -> ns' !! k = ns !! k)
  /\ (forall old, DictParsingAction_call type_ (setattr ns dest old) dest values = Ok ns').
Proof.
  intros H. destruct (dict_action_value _ _ _ _ _ H) as (v & -> & Hany).
  unfold setattr in *. repeat split.
  - rewrite lookup_insert_eq. eauto.
  - intros k Hk. now apply lookup_insert_ne.
  - intros old. rewrite Hany. now rewrite insert_insert_eq.
Qed.

Lemma dict_action_replaces_its_destination_witness :
  DictParsingAction_call py_int (<["m" := VInt 0]> ∅) "m" ["a=1"]
  = Ok (<["m" := VDict (<["a" := VInt 1]> ∅)]> ∅)
  /\ forall old,
       DictParsingAction_call py_int (setattr (<["m" := VInt 0]> ∅) "m" old) "m" ["a=1"]
       = Ok (<["m" := VDict (<["a" := VInt 1]> ∅)]> ∅).
Proof.
  assert (H : DictParsingAction_call py_int (<["m" := VInt 0]> ∅) "m" ["a=1"]
              = Ok (<["m" := VDict (<["a" := VInt 1]> ∅)]> ∅)) by reflexivity.
  split; [exact H|].
  exact (proj2 (proj2 (dict_action_replaces_its_destination py_int _ _ "m" ["a=1"] H))).
Defined.

(** ** The shape of a help text *)

Lemma split_pieces_free (c : ascii) (s : string) :
  forall cur,
    PyStr.contains (PyStr.chr c) cur = false ->
    Forall (fun l => PyStr.contains (PyStr.chr c) l = false)
      (PyStr.split_from (PyStr.chr c) 0 cur s).
Proof.
  induction s as [|a s IH]; intros cur Hcur.
  - simpl. now constructor.
  - rewrite split_chr_step. destruct (Ascii.eqb c a) eqn:Hca.
    + constructor; [exact Hcur | now apply IH].
    + apply IH. rewrite contains_chr_app, Hcur. unfold PyStr.chr at 2.
      rewrite contains_chr_cons, Hca. reflexivity.
Qed.

Lemma lstrip_free (c : ascii) (s : string) :
  PyStr.contains (PyStr.chr c) s = false ->
  PyStr.contains (PyStr.chr c) (PyStr.lstrip s) = false.
Proof.
  induction s as [|a s IH]; intros Hs; [reflexivity|].
  simpl. destruct (PyStr.isspace a); [|exact Hs].
  rewrite contains_chr_cons in Hs. apply orb_false_iff in Hs as [_ Hs]. now apply IH.
Qed.

Lemma rstrip_free (c : ascii) (s : string) :
  PyStr.contains (PyStr.chr c) s = false ->
  PyStr.contains (PyStr.chr c) (PyStr.rstrip s) = false.
Proof.
  induction s as [|a s IH]; intros Hs; [reflexivity|].
  rewrite contains_chr_cons in Hs. apply orb_false_iff in Hs as [Ha Hs].
  specialize (IH Hs). simpl. destruct (PyStr.rstrip s) as [|b r].
  - destruct (PyStr.isspace a); [reflexivity|].
    unfold PyStr.chr at 2. now rewrite contains_chr_cons, Ha.
  - now rewrite contains_chr_cons, Ha, IH.
Qed.

Lemma parse_help_loop_free (c : ascii) (lines : list string) (name : string) :
  Ascii.eqb c " " = false ->
  Forall (fun l => PyStr.contains (PyStr.chr c) l = false) lines ->
  forall doc started,
    PyStr.contains (PyStr.chr c) doc = false ->
    PyStr.contains (PyStr.chr c) (parse_help_loop lines name doc started) = false.
Proof.
  intros Hc. induction 1 as [|l lines Hl _ IH]; intros doc started Hdoc; [exact Hdoc|].
  rewrite parse_help_loop_cons.
  destruct (String.eqb l (marker_line name)); [now apply IH|].
  destruct (negb _ && started); [exact Hdoc|].
  destruct started; [|now apply IH].
  apply IH. rewrite contains_chr_app, Hdoc.
  change (" " ++ PyStr.strip l) with (String " " (PyStr.strip l)).
  rewrite contains_chr_cons, Hc. unfold PyStr.strip.
  now apply lstrip_free, rstrip_free.
Qed.

Lemma parse_help_loop_head (lines : list string) (name : string) :
  forall doc started,
    doc = "" \/ PyStr.startswith doc " " = true ->
    parse_help_loop lines name doc started = ""
    \/ PyStr.startswith (parse_help_loop lines name doc started) " " = true.
Proof.
  induction lines as [|l lines IH]; intros doc started Hdoc; [exact Hdoc|].
  rewrite parse_help_loop_cons.
  destruct (String.eqb l (marker_line name)); [now apply IH|].
  destruct (negb _ && started); [exact Hdoc|].
  destruct started; [|now apply IH].
  apply IH. right. destruct Hdoc as [->|Hdoc].
  { change (PyStr.startswith ("" ++ " " ++ PyStr.strip l) " ")
      with (String.prefix (PyStr.chr " ") (String " " (PyStr.strip l))).
    now rewrite prefix_chr. }
  destruct doc as [|a doc]; [discriminate|].
  change (PyStr.startswith (String a doc ++ " " ++ PyStr.strip l) " ")
    with (String.prefix (PyStr.chr " ") (String a (doc ++ " " ++ PyStr.strip l))).
  change (PyStr.startswith (String a doc) " ")
    with (String.prefix (PyStr.chr " ") (String a doc)) in Hdoc.
  rewrite prefix_chr in *. exact Hdoc.
Qed.

(** X9. Whatever the documentation and the parameter name, the help text
    is a single line: it contains no newline.  And it is either empty or
    starts with a space. *)
Theorem help_text_is_one_line (args name : string) :
  PyStr.contains PyStr.nl (_parse_help args name) = false
  /\ (_parse_help args name = ""
      \/ PyStr.startswith (_parse_help args name) " " = true).
Proof.
  unfold _parse_help. split.
  - apply parse_help_loop_free; [reflexivity| |reflexivity].
    apply split_pieces_free. reflexivity.
  - apply parse_help_loop_head. now left.
Qed.

(** ** The parser of a function *)

Lemma param_kwargs_help (args : string) (p : Param) (k : add_kwargs) :
  param_kwargs args p = Ok k -> kw_help k = Some (_parse_help args (p_name p)).
Proof.
  unfold param_kwargs.
  destruct (_get_origin_and_type (p_annotation p)) as [o ty].
  set (resolved := match o with
                   | Some OUnion => _
                   | _ => _
                   end).
  destruct resolved as [[[ann o'] ty']|e]; [|discriminate].
  rewrite bind_Ok.
  destruct (_parse_array_like ann o' empty_kwargs) as [[kw returned]|e]; [|discriminate].
  rewrite bind_Ok.
  destruct (is_bool _).
  - destruct (p_default p); intros [= <-]; reflexivity.
  - destruct (p_default p); intros [= <-]; reflexivity.
Qed.

Lemma make_action_help (flag d : string) (k : add_kwargs) (a : Action) :
  make_action flag d k = Ok a -> a_help a = default "" (kw_help k).
Proof.
  unfold make_action. intros Ha.
  repeat (match type of Ha with
          | context [match ?x with _ => _ end] => destruct x eqn:?
          end; simpl in Ha; try discriminate);
    inversion Ha; now subst.
Qed.

Lemma add_param_flag (args : string) (p : Param) (parser parser' : ArgumentParser) :
  add_param args p parser = Ok parser' ->
  prog parser' = prog parser
  /\ description parser' = description parser
  /\ exists a,
       actions parser' = (actions parser ++ [a])%list
       /\ option_strings a = [flag_of (p_name p)]
       /\ dest a = infer_dest (flag_of (p_name p))
       /\ a_help a = _parse_help args (p_name p).
Proof.
  unfold add_param. destruct (param_kwargs args p) as [k|e] eqn:Hk; [|discriminate].
  rewrite bind_Ok. unfold add_argument.
  destruct (String.eqb _ ""); [discriminate|].
  destruct (make_action _ _ k) as [a|e] eqn:Ha; [|discriminate].
  rewrite bind_Ok.
  destruct (negb _); [discriminate|]. destruct (existsb _ _); [discriminate|].
  intros [= <-]. split; [reflexivity|]. split; [reflexivity|].
  exists a. split; [reflexivity|].
  destruct (make_action_dest _ _ _ _ Ha) as [Hos Hd].
  split; [exact Hos|]. split; [exact Hd|].
  rewrite (make_action_help _ _ _ _ Ha), (param_kwargs_help _ _ _ Hk). reflexivity.
Qed.

Lemma add_params_flags (args : string) (ps : list Param) :
  forall p0 p1,
    for_each ps (add_param args) p0 = Ok p1 ->
    prog p1 = prog p0
    /\ description p1 = description p0
    /\ exists acts,
         actions p1 = (actions p0 ++ acts)%list
         /\ Forall2 (fun p a =>
                       option_strings a = [flag_of (p_name p)]
                       /\ dest a = infer_dest (flag_of (p_name p))
                       /\ a_help a = _parse_help args (p_name p)) ps acts.
Proof.
  induction ps as [|p ps IH]; intros p0 p1 Hps.
  - simpl in Hps. injection Hps as <-. split; [reflexivity|]. split; [reflexivity|].
    exists []. split; [now rewrite app_nil_r | constructor].
  - rewrite for_each_cons in Hps.
    destruct (add_param args p p0) as [p0'|e] eqn:Hadd;
      [rewrite bind_Ok in Hps | rewrite bind_Raise in Hps; discriminate].
    destruct (IH _ _ Hps) as (Hprog & Hdescr & acts & Hacts & Hall).
    destruct (add_param_flag _ _ _ _ Hadd) as (Hprog' & Hdescr' & a & Ha & Hflag).
    split; [congruence|]. split; [congruence|].
    exists (a :: acts). split.
    + rewrite Hacts, Ha. now rewrite <- app_assoc.
    + now constructor.
Qed.

(** X10. The parser that [make_parser] builds has, after [-h/--help],
    exactly one flag per parameter, in the order of the signature: the
    flag is two dashes and the parameter name with its underscores turned
    into dashes, its help text is what the scanner finds for the parameter
    name in the arguments section of the docstring, and its destination is
    inferred from the flag.  The program name is the override when it is
    truthy and the name of the function otherwise, and the description is
    the docstring before the arguments section without trailing
    whitespace. *)
Theorem parser_has_one_flag_per_parameter
    (f : callable) (prog_arg : pyobject) (parser : ArgumentParser) :
  make_parser f prog_arg = Ok parser ->
  prog parser = (if object_truthy prog_arg then prog_arg else ObjValue (VStr (__name__ f)))
  /\ description parser = PyStr.rstrip (split_doc (__doc__ f)).1
  /\ exists acts,
       actions parser = help_action :: acts
       /\ Forall2 (fun p a =>
                     option_strings a = ["--" ++ PyStr.replace (p_name p) "_" "-"]
                     /\ dest a = infer_dest ("--" ++ PyStr.replace (p_name p) "_" "-")
                     /\ a_help a = _parse_help (split_doc (__doc__ f)).2 (p_name p))
            (signature f) acts.
Proof.
  unfold make_parser. destruct (split_doc (__doc__ f)) as [doc args]. intros Hrun.
  destruct (add_params_flags _ _ _ _ Hrun) as (Hprog & Hdescr & acts & Hacts & Hall).
  split; [exact Hprog|]. split; [exact Hdescr|]. exists acts. split; [exact Hacts | exact Hall].
Qed.

Lemma parser_has_one_flag_per_parameter_witness :
  exists parser,
    make_parser fn_optional_flag (ObjValue VNone) = Ok parser
    /\ prog parser = ObjValue (VStr "f")
    /\ description parser = "".
Proof.
  eexists. split; [reflexivity|].
  destruct (parser_has_one_flag_per_parameter fn_optional_flag (ObjValue VNone) _ eq_refl)
    as (Hprog & Hdescr & _).
  split; [exact Hprog | exact Hdescr].
Defined.

(** ** Names that cannot be flags *)

Lemma for_each_ok_split {A S} (l1 l2 : list A) (x : A) (body : A -> S -> outcome S)
    (s s' : S) :
  for_each (l1 ++ x :: l2)%list body s = Ok s' ->
  exists s1 s2, for_each l1 body s = Ok s1 /\ body x s1 = Ok s2
                /\ for_each l2 body s2 = Ok s'.
Proof.
  rewrite for_each_app. intros H.
  destruct (for_each l1 body s) as [s1|e]; [|discriminate].
  rewrite bind_Ok, for_each_cons in H.
  destruct (body x s1) as [s2|e] eqn:Hx; [|discriminate].
  rewrite bind_Ok in H. eauto.
Qed.

Lemma only_underscores_no_dest (name : string) :
  PyStr.lstrip_char "_" name = "" ->
  PyStr.lstrip_char "-" (flag_of name) = "".
Proof.
  intros H. unfold flag_of.
  change (PyStr.replace name "_" "-") with (PyStr.replace name (PyStr.chr "_") (PyStr.chr "-")).
  rewrite replace_chr.
  change (PyStr.lstrip_char "-" ("--" ++ subst_char "_" "-" name))
    with (PyStr.lstrip_char "-" (subst_char "_" "-" name)).
  induction name as [|c name IH]; [reflexivity|].
  simpl in H. simpl. destruct (Ascii.eqb c "_"); [|discriminate].
  simpl. now apply IH.
Qed.

Lemma add_param_refuses_help (args : string) (p : Param) (parser : ArgumentParser)
    (acts : list Action) :
  actions parser = help_action :: acts ->
  p_name p = "help" ->
  forall parser', add_param args p parser <> Ok parser'.
Proof.
  intros Hacts Hname parser'. unfold add_param.
  destruct (param_kwargs args p) as [k|e]; [|discriminate].
  rewrite bind_Ok. unfold add_argument. rewrite Hname, Hacts.
  change (flag_of "help") with "--help".
  change (PyStr.lstrip_char "-" "--help") with "help".
  change (String.eqb "help" "") with false. cbv iota.
  destruct (make_action "--help" (infer_dest "--help") k) as [a|e]; [|discriminate].
  rewrite bind_Ok. destruct (negb _); [discriminate|].
  change (existsb (fun a0 => string_in "--help" (option_strings a0)) (help_action :: acts))
    with true. discriminate.
Qed.

Lemma add_param_refuses_underscores (args : string) (p : Param) (parser : ArgumentParser) :
  PyStr.lstrip_char "_" (p_name p) = "" ->
  forall parser', add_param args p parser <> Ok parser'.
Proof.
  intros Hname parser'. unfold add_param.
  destruct (param_kwargs args p) as [k|e]; [|discriminate].
  rewrite bind_Ok. unfold add_argument.
  rewrite (only_underscores_no_dest _ Hname). discriminate.
Qed.

(** X11. A function with a parameter called [help], or with a parameter
    whose name is made of underscores only, gets no parser: the flag of the
    first collides with [--help], and the flag of the second leaves no
    destination once its dashes are stripped. *)
Theorem unusable_parameter_names
    (f : callable) (prog_arg : pyobject) (p : Param) :
  p ∈ signature f ->
  p_name p = "help" \/ PyStr.lstrip_char "_" (p_name p) = "" ->
  exists e, make_parser f prog_arg = Raise e.
Proof.
  intros Hin Hname.
  destruct (make_parser f prog_arg) as [parser|e] eqn:Hrun; [exfalso|eauto].
  unfold make_parser in Hrun. destruct (split_doc (__doc__ f)) as [doc args].
  apply list_elem_of_split in Hin as (l1 & l2 & Hsig). rewrite Hsig in Hrun.
  apply for_each_ok_split in Hrun as (p1 & p2 & Hl1 & Hadd & _).
  destruct Hname as [Hname|Hname].
  - destruct (add_params_actions _ _ _ _ Hl1) as (acts & Hacts & _).
    exact (add_param_refuses_help args p p1 acts Hacts Hname p2 Hadd).
  - exact (add_param_refuses_underscores args p p1 Hname p2 Hadd).
Qed.

Lemma unusable_parameter_names_witness :
  param "_" (Class Cint) None ∈ signature (def "f" None [param "_" (Class Cint) None])
  /\ PyStr.lstrip_char "_" "_" = ""
  /\ exists e, make_parser (def "f" None [param "_" (Class Cint) None]) (ObjValue VNone)
               = Raise e.
Proof.
  assert (Hin : param "_" (Class Cint) None
                  ∈ signature (def "f" None [param "_" (Class Cint) None]))
    by apply list_elem_of_here.
  split; [exact Hin|]. split; [reflexivity|].
  exact (unusable_parameter_names _ (ObjValue VNone) _ Hin (or_intror eq_refl)).
Defined.

Example parameter_called_help :
  make_parser (def "f" None [param "help" (Class Cstr) None]) (ObjValue VNone)
  = Raise (ArgumentError "argument --help: conflicting option string: --help").
Proof. reflexivity. Qed.

Example parameter_called_underscore :
  make_parser (def "f" None [param "_" (Class Cstr) None]) (ObjValue VNone)
  = Raise (ValueError "dest= is required for options like '---'").
Proof. reflexivity. Qed.

(** ** Unions and their containers *)



(** ** Scalar parameters and required flags *)

(** X13. A parameter annotated with a class other than [bool] gets a
    flag that takes exactly one token and coerces it by that class; the
    flag is required exactly when the parameter has no default, and the
    default of the parameter, or [None] when it has none, is the default
    of the flag. *)
Theorem scalar_parameter_flag
    (args : string) (p : Param) (c : pyclass) (flag d : string) :
  p_annotation p = Class c ->
  c <> Cbool ->
  (param_kwargs args p ≫= make_action flag d)
  = Ok {| option_strings := [flag]; dest := d; a_nargs := NargsOne;
          a_const := VNone;
          a_default := Some (default VNone (p_default p));
          a_type := Some (Class c);
          a_required := match p_default p with None => true | Some _ => false end;
          a_help := _parse_help args (p_name p); a_kind := KStore |}.
Proof.
  intros Ha Hc. unfold param_kwargs. rewrite Ha.
  destruct c; [congruence|..]; destruct (p_default p); reflexivity.
Qed.

Lemma scalar_parameter_flag_witness :
  p_annotation (param "a" (Class Cint) None) = Class Cint
  /\ Cint <> Cbool
  /\ a_required <$> (match param_kwargs "" (param "a" (Class Cint) None)
                             ≫= make_action "--a" "a" with
                     | Ok a => Some a
                     | Raise _ => None
                     end) = Some true.
Proof.
  split; [reflexivity|]. split; [discriminate|].
  rewrite (scalar_parameter_flag "" (param "a" (Class Cint) None) Cint "--a" "a" eq_refl);
    [reflexivity | discriminate].
Defined.


Section RequiredFlags.

Variable call_other : string -> string -> outcome value.
Variable acts : list Action.
Variable argv : list string.








End RequiredFlags.







(** ** Output shapes of an ensemble *)

Lemma shapes_lookup_other (outputs : list ModelOutput) (k : string) :
  Forall (fun y => mo_name y <> k) outputs ->
  forall d : gmap string (list Z),
    foldl (fun d x => <[mo_name x := mo_dims x]> d) d outputs !! k = d !! k.
Proof.
  induction 1 as [|x outputs Hx _ IH]; intros d; simpl; [reflexivity|].
  rewrite IH. now apply lookup_insert_ne.
Qed.

Lemma shapes_lookup_last (l1 l2 : list ModelOutput) (x : ModelOutput)
    (d : gmap string (list Z)) :
  Forall (fun y => mo_name y <> mo_name x) l2 ->
  foldl (fun d x => <[mo_name x := mo_dims x]> d) d (l1 ++ x :: l2)%list !! mo_name x
  = Some (mo_dims x).
Proof.
  intros Hl2. rewrite foldl_app. simpl.
  rewrite shapes_lookup_other by assumption. apply lookup_insert_eq.
Qed.

(** X16. The output shapes of an ensemble are [None] exactly when the
    configuration lists no output.  Otherwise they are a mapping that binds
    every output name of the configuration, and no other name, to the
    dimensions of the last output of that name; the model function and the
    requested output names play no part. *)
Theorem output_shapes_of_the_configuration
    (outputs : list ModelOutput) (model_fn : unit) (output_names : option (list string)) :
  (_get_output_shapes outputs model_fn output_names = None <-> outputs = [])
  /\ (forall shapes,
         _get_output_shapes outputs model_fn output_names = Some shapes ->
         (forall l1 x l2,
             outputs = (l1 ++ x :: l2)%list ->
             Forall (fun y => mo_name y <> mo_name x) l2 ->
             shapes !! mo_name x = Some (mo_dims x))
         /\ (forall k, Forall (fun y => mo_name y <> k) outputs -> shapes !! k = None))
  /\ _get_output_shapes outputs model_fn output_names = _get_output_shapes outputs tt None.
Proof.
  unfold _get_output_shapes. split; [split|split].
  - destruct outputs as [|x outputs] using rev_ind; [reflexivity|]. clear IHoutputs.
    case_decide as He; [|discriminate]. intros _. exfalso.
    pose proof (shapes_lookup_last outputs [] x ∅ ltac:(constructor)) as Hl.
    rewrite He, lookup_empty in Hl. discriminate.
  - intros ->. reflexivity.
  - intros shapes Hs. case_decide; [discriminate|]. injection Hs as <-. split.
    + intros l1 x l2 -> Hl2. now apply shapes_lookup_last.
    + intros k Hk. rewrite shapes_lookup_other by assumption. apply lookup_empty.
  - reflexivity.
Qed.

Lemma output_shapes_of_the_configuration_witness :
  _get_output_shapes
    [{| mo_name := "y"; mo_dims := [1; 2]%Z |}; {| mo_name := "y"; mo_dims := [3]%Z |}]
    tt None <> None
  /\ (_get_output_shapes [] tt (Some ["y"]) = None <-> @nil ModelOutput = []).
Proof.
  split.
  - intros H.
    apply (proj1 (proj1 (output_shapes_of_the_configuration
                           [{| mo_name := "y"; mo_dims := [1; 2]%Z |};
                            {| mo_name := "y"; mo_dims := [3]%Z |}] tt None))) in H.
    discriminate.
  - exact (proj1 (output_shapes_of_the_configuration [] tt (Some ["y"]))).
Defined.

(** ** Container parameters *)

(** X17. A parameter annotated as a list or sequence of a class other
    than [bool] gets a flag that takes one or more tokens, each coerced by
    that class; a parameter annotated as a mapping from [str] to such a
    class gets a flag that takes one or more tokens, handed as strings to
    the dictionary action with the class as value type.  Either flag is
    required exactly when the parameter has no default. *)
Theorem container_parameter_flags
    (args : string) (p : Param) (c : pyclass) (rest : list annotation) (flag d : string) :
  c <> Cbool ->
  (forall o,
      o = Olist \/ o = OSequence ->
      p_annotation p = Generic o (Class c :: rest) ->
      (param_kwargs args p ≫= make_action flag d)
      = Ok {| option_strings := [flag]; dest := d; a_nargs := NargsPlus;
              a_const := VNone;
              a_default := Some (default VNone (p_default p));
              a_type := Some (Class c);
              a_required := match p_default p with None => true | Some _ => false end;
              a_help := _parse_help args (p_name p); a_kind := KStore |})
  /\ (p_annotation p = Generic Odict (Class Cstr :: Class c :: rest) ->
      (param_kwargs args p ≫= make_action flag d)
      = Ok {| option_strings := [flag]; dest := d; a_nargs := NargsPlus;
              a_const := VNone;
              a_default := Some (default VNone (p_default p));
              a_type := Some (Class Cstr);
              a_required := match p_default p with None => true | Some _ => false end;
              a_help := _parse_help args (p_name p);
              a_kind := KDictParsing (Class c) |}).
Proof.
  intros Hc. split.
  - intros o [-> | ->] Ha; unfold param_kwargs; rewrite Ha;
      (destruct c; [congruence|..]; destruct (p_default p); reflexivity).
  - intros Ha. unfold param_kwargs. rewrite Ha.
    destruct c; [congruence|..]; destruct (p_default p); reflexivity.
Qed.

Lemma container_parameter_flags_witness :
  Cint <> Cbool
  /\ p_annotation (param "x" (Generic Olist [Class Cint]) None) = Generic Olist [Class Cint]
  /\ a_nargs <$> (match param_kwargs "" (param "x" (Generic Olist [Class Cint]) None)
                          ≫= make_action "--x" "x" with
                  | Ok a => Some a
                  | Raise _ => None
                  end) = Some NargsPlus.
Proof.
  assert (Hc : Cint <> Cbool) by discriminate.
  split; [exact Hc|]. split; [reflexivity|].
  rewrite (proj1 (container_parameter_flags "" (param "x" (Generic Olist [Class Cint]) None)
                    Cint [] "--x" "x" Hc) Olist (or_introl eq_refl) eq_refl).
  reflexivity.
Defined.

(** X18. A parameter annotated as a list or sequence of [bool], or as a
    mapping from [str] to [bool], cannot become a flag: the boolean branch
    picks a [store_true] or [store_false] action, which takes no arity, so
    [add_argument] raises a [TypeError] and a function that has such a
    parameter gets no parser. *)
Theorem container_of_bool_is_refused
    (f : callable) (prog_arg : pyobject) (p : Param) (rest : list annotation) :
  p ∈ signature f ->
  p_annotation p = Generic Olist (Class Cbool :: rest)
  \/ p_annotation p = Generic OSequence (Class Cbool :: rest)
  \/ p_annotation p = Generic Odict (Class Cstr :: Class Cbool :: rest) ->
  (forall args flag d,
      (param_kwargs args p ≫= make_action flag d)
      = Raise (TypeError "__init__() got an unexpected keyword argument 'nargs'"))
  /\ exists e, make_parser f prog_arg = Raise e.
Proof.
  intros Hin Ha.
  assert (Hp : forall args flag d,
             (param_kwargs args p ≫= make_action flag d)
             = Raise (TypeError "__init__() got an unexpected keyword argument 'nargs'")).
  { intros args flag d. unfold param_kwargs.
    destruct Ha as [Ha|[Ha|Ha]]; rewrite Ha;
      destruct (p_default p) as [v|]; try reflexivity;
      simpl; destruct (truthy v); reflexivity. }
  split; [exact Hp|].
  destruct (make_parser f prog_arg) as [parser|e] eqn:Hrun; [exfalso|eauto].
  unfold make_parser in Hrun. destruct (split_doc (__doc__ f)) as [doc args].
  apply list_elem_of_split in Hin as (l1 & l2 & Hsig). rewrite Hsig in Hrun.
  apply for_each_ok_split in Hrun as (p1 & p2 & _ & Hadd & _).
  unfold add_param in Hadd.
  specialize (Hp args (flag_of (p_name p)) (infer_dest (flag_of (p_name p)))).
  destruct (param_kwargs args p) as [k|e]; [|discriminate].
  rewrite bind_Ok in Hadd. rewrite bind_Ok in Hp. unfold add_argument in Hadd.
  destruct (String.eqb _ ""); [discriminate|].
  rewrite Hp in Hadd. discriminate.
Qed.

Lemma container_of_bool_is_refused_witness :
  param "x" (Generic Olist [Class Cbool]) None
    ∈ signature (def "f" None [param "x" (Generic Olist [Class Cbool]) None])
  /\ exists e,
       make_parser (def "f" None [param "x" (Generic Olist [Class Cbool]) None])
         (ObjValue VNone) = Raise e.
Proof.
  assert (Hin : param "x" (Generic Olist [Class Cbool]) None
                  ∈ signature (def "f" None [param "x" (Generic Olist [Class Cbool]) None]))
    by apply list_elem_of_here.
  split; [exact Hin|].
  exact (proj2 (container_of_bool_is_refused _ (ObjValue VNone) _ [] Hin
                  (or_introl eq_refl))).
Defined.

(** ** Boolean parameters and parsed keys *)

(** X19. A parameter annotated [bool] gets a flag that takes no token and
    is never required; given, it stores the negation of the truth value of
    the default, and its own default is the truth value of the default of
    the parameter, false when there is none. *)
Theorem boolean_parameter_flag (args : string) (p : Param) (flag d : string) :
  p_annotation p = Class Cbool ->
  (param_kwargs args p ≫= make_action flag d)
  = Ok {| option_strings := [flag]; dest := d; a_nargs := NargsZero;
          a_const := VBool (negb (flag_default (p_default p)));
          a_default := Some (VBool (flag_default (p_default p)));
          a_type := None; a_required := false;
          a_help := _parse_help args (p_name p); a_kind := KStoreConst |}.
Proof. apply bool_param_action. Qed.

Lemma boolean_parameter_flag_witness :
  p_annotation (param "flag" (Class Cbool) (Some (VBool true))) = Class Cbool
  /\ a_const <$> (match param_kwargs "" (param "flag" (Class Cbool) (Some (VBool true)))
                          ≫= make_action "--flag" "flag" with
                  | Ok a => Some a
                  | Raise _ => None
                  end) = Some (VBool false).
Proof.
  split; [reflexivity|].
  rewrite (boolean_parameter_flag "" (param "flag" (Class Cbool) (Some (VBool true)))
             "--flag" "flag" eq_refl).
  reflexivity.
Defined.



(** ** Docstrings without an arguments section *)

Lemma split_without_separator (sep s : string) :
  PyStr.contains sep s = false ->
  forall cur, PyStr.split_from sep 0 cur s = [cur ++ s].
Proof.
  induction s as [|c s IH]; intros Hs cur.
  - simpl. now rewrite str_app_nil_r.
  - change (PyStr.contains sep (String c s))
      with (String.prefix sep (String c s) || PyStr.contains sep s) in Hs.
    apply orb_false_iff in Hs as [Hp Hs].
    change (PyStr.split_from sep 0 cur (String c s))
      with (if String.prefix sep (String c s)
            then cur :: PyStr.split_from sep (String.length sep - 1) "" s
            else PyStr.split_from sep 0 (cur ++ PyStr.chr c) s).
    rewrite Hp, (IH Hs). now rewrite str_app_assoc.
Qed.

Lemma parse_help_of_nothing (name : string) : _parse_help "" name = "".
Proof. reflexivity. Qed.

(** X21. For a function without docstring, or whose docstring has no
    [Args:] header line, the description of the parser is the whole
    docstring without trailing whitespace (empty when there is none) and
    every flag of a parameter has an empty help text. *)
Theorem no_arguments_section_no_help
    (f : callable) (prog_arg : pyobject) (parser : ArgumentParser) :
  __doc__ f = None
  \/ (exists d, __doc__ f = Some d /\ PyStr.contains ("Args:" ++ PyStr.nl) d = false) ->
  make_parser f prog_arg = Ok parser ->
  description parser = PyStr.rstrip (default "" (__doc__ f))
  /\ exists acts,
       actions parser = help_action :: acts
       /\ length acts = length (signature f)
       /\ Forall (fun a => a_help a = "") acts.
Proof.
  intros Hdoc Hrun.
  assert (Hsplit : split_doc (__doc__ f) = (default "" (__doc__ f), "")).
  { destruct Hdoc as [->|(d & -> & Hd)]; [reflexivity|].
    unfold split_doc, PyStr.split. now rewrite (split_without_separator _ _ Hd). }
  unfold make_parser in Hrun. rewrite Hsplit in Hrun.
  destruct (add_params_flags _ _ _ _ Hrun) as (_ & Hdescr & acts & Hacts & Hall).
  split; [exact Hdescr|].
  exists acts. split; [exact Hacts|]. split.
  - symmetry. exact (Forall2_length _ _ _ Hall).
  - clear -Hall. induction Hall as [|p a ps acts (_ & _ & Hh) _ IH]; constructor; [|exact IH].
    rewrite Hh. apply parse_help_of_nothing.
Qed.

Lemma no_arguments_section_no_help_witness :
  exists parser,
    make_parser fn_optional_flag (ObjValue VNone) = Ok parser
    /\ description parser = PyStr.rstrip (default "" (__doc__ fn_optional_flag)).
Proof.
  eexists. split; [reflexivity|].
  exact (proj1 (no_arguments_section_no_help fn_optional_flag (ObjValue VNone) _
                  (or_introl eq_refl) eq_refl)).
Defined.
